(** * lotus-ge: the cache-and-normalize pipeline of the analytics routes

    A shallow embedding of the six route modules under
    [src/app/api/osrs/*/route.ts] and of the data transformations of
    [src/app/analytics/page.tsx].

    Conventions of the embedding.
    - A JSON number is a rational ([Q]): every finite double is one, so a
      field that is passed through is exact; sums, differences and products
      are the exact ones, which is what the doubles give on gp prices and
      quantities.  Epoch milliseconds are integers ([Z]); array indices and
      lengths are naturals.
    - An optional field [f?: T] of a TypeScript interface is [option T],
      [None] standing for a property that is absent ([undefined]).
    - [a || b] is JavaScript's: the left operand when it is truthy, the
      right one otherwise.  [0], the empty string, [false] and [undefined]
      are falsy.
    - A summary document is read as the routes read it, without
      validation: its [items] may be no array, an element of the array
      may be [null], and its [updated] may be any JSON value.
    - A route runs in a small monad that threads the module-level cache
      and the requests sent so far, may raise, and asks its environment
      for the clock, for the answers of the network and for the reading
      of dates. *)

From Stdlib Require Import ZArith QArith Qround List String Bool Arith Lia.
From Stdlib Require Import Ascii DecimalString DecimalNat.
Import ListNotations.

Set Implicit Arguments.

(** ** JavaScript values at the boundary *)

Module JS.

(** Truthiness of the primitive types the routes handle. *)
Class Truthy (A : Type) := truthy : A -> bool.

#[export] Instance truthy_number : Truthy Q :=
  fun q => negb (Qnum q =? 0)%Z.
#[export] Instance truthy_string : Truthy string :=
  fun s => match s with EmptyString => false | String _ _ => true end.
#[export] Instance truthy_boolean : Truthy bool := fun b => b.

(** [x || d] where [x] reads an optional property and [d] is a value. *)
Definition or {A} `{Truthy A} (x : option A) (d : A) : A :=
  match x with
  | Some v => if truthy v then v else d
  | None => d
  end.

(** [x || y] where both operands read optional properties. *)
Definition orElse {A} `{Truthy A} (x y : option A) : option A :=
  match x with
  | Some v => if truthy v then x else y
  | None => y
  end.

(** [x ?? d]: the nullish default the specification writes. *)
Definition nullish {A} (x : option A) (d : A) : A :=
  match x with
  | Some v => v
  | None => d
  end.

(** The result of [Date.prototype.getTime] and of arithmetic on it:
    an integer number of milliseconds, or [NaN] for an invalid date. *)
Inductive number : Type :=
| Num (ms : Z)
| NaN.

(** [now - t < w], false as soon as [t] is [NaN]. *)
Definition elapsed_lt (now : Z) (t : number) (w : Z) : bool :=
  match t with
  | Num ms => (now - ms <? w)%Z
  | NaN => false
  end.

(** [Math.max(x, ...xs)]: [NaN] as soon as one argument is. *)
Fixpoint Math_max (x : number) (xs : list number) : number :=
  match xs with
  | [] => x
  | y :: ys =>
      match x, Math_max y ys with
      | Num a, Num b => Num (Z.max a b)
      | _, _ => NaN
      end
  end.

(** [new Date(q).getTime()] for a number [q], which is [TimeClip(q)]:
    the integral part of [q], or [NaN] when [q] is more than 8.64e15 ms
    away from the epoch. *)
Definition TimeClip (q : Q) : number :=
  if Qle_bool (inject_Z (-8640000000000000)) q
     && Qle_bool q (inject_Z 8640000000000000)
  then Num (Z.quot (Qnum q) (Z.pos (Qden q)))
  else NaN.

(** [Math.floor] of a rational. *)
Definition Math_floor (q : Q) : Q := inject_Z (Qfloor q).

(** [a > b] on numbers. *)
Definition gt (a b : Q) : bool := negb (Qle_bool a b).

(** [`${n}`] for an array index. *)
Definition string_of_index (n : nat) : string :=
  NilZero.string_of_uint (Nat.to_uint n).

(** An array index as a number. *)
Definition of_index (n : nat) : Q := inject_Z (Z.of_nat n).

(** [Array.prototype.map] with the callback's [(item, index)]. *)
Fixpoint map_from {A B} (f : A -> nat -> B) (start : nat) (l : list A)
  : list B :=
  match l with
  | [] => []
  | x :: xs => f x start :: map_from f (S start) xs
  end.

Definition map_index {A B} (f : A -> nat -> B) (l : list A) : list B :=
  map_from f 0 l.

(** [Array.prototype.slice(0, n)]. *)
Definition slice0 {A} (n : nat) (l : list A) : list A := firstn n l.

End JS.

Export JS.

Declare Scope js_scope.
Delimit Scope js_scope with js.
Infix "||" := JS.or (at level 50, left associativity) : js_scope.
Infix "||?" := JS.orElse (at level 50, left associativity) : js_scope.

Local Open Scope Q_scope.
Local Open Scope string_scope.

(** ** The route modules: records and normalizers *)

Module AlchemyFloors.

Module RawAlchemyData.
Record t : Type := mk {
  id : option Q;
  ItemName : option string;
  LowPrice : option Q;
  PriceFloor : option Q;
  BuyLimit : option Q;
  pctROI : option Q;
}.
End RawAlchemyData.

Module AlchemyOpportunity.
Record t : Type := mk {
  id : string;
  name : string;
  members : bool;
  icon : string;
  currentLow : Q;
  priceFloor : Q;
  buyLimit : Q;
  potentialProfit : Q;
  roi : Q;
  alchPrice : Q;
  natureRuneCost : Q;
  tax : Q;
  liquidityRisk : Q;
  capitalRisk : Q;
  overallRisk : Q;
}.
End AlchemyOpportunity.

Import RawAlchemyData.

Definition processItem (item : RawAlchemyData.t) (index : nat)
  : AlchemyOpportunity.t :=
  {| AlchemyOpportunity.id := "alchemy-" ++ string_of_index index;
     AlchemyOpportunity.name := (ItemName item || "Unknown Item")%js;
     AlchemyOpportunity.members := true;
     AlchemyOpportunity.icon := "";
     AlchemyOpportunity.currentLow := (LowPrice item || 0)%js;
     AlchemyOpportunity.priceFloor := (PriceFloor item || 0)%js;
     AlchemyOpportunity.buyLimit := (BuyLimit item || 0)%js;
     AlchemyOpportunity.potentialProfit :=
       (PriceFloor item || 0)%js - (LowPrice item || 0)%js;
     AlchemyOpportunity.roi := (pctROI item || 0)%js;
     AlchemyOpportunity.alchPrice := (PriceFloor item || 0)%js;
     AlchemyOpportunity.natureRuneCost := 170;
     AlchemyOpportunity.tax := Math_floor ((PriceFloor item || 0)%js * 0.01);
     AlchemyOpportunity.liquidityRisk := 1;
     AlchemyOpportunity.capitalRisk :=
       if gt (LowPrice item || 0)%js 1000000 then 2 else 1;
     AlchemyOpportunity.overallRisk := 2 |}.

Definition processAlchemyData (data : list RawAlchemyData.t)
  : list AlchemyOpportunity.t :=
  map_index processItem data.

End AlchemyFloors.

Module VolatilityBreakout.

Module RawVolatilityData.
Record t : Type := mk {
  ItemName : option string;
  CurrentPrice : option Q;
  BuyLimit : option Q;
  DailyRange : option Q;
  WeeklyRange : option Q;
  MonthlyRange : option Q;
  CompressionRatio : option Q;
  BreakoutDirection : option string;
  VolumeConfirmation : option string;
  PotentialBreakoutProfit : option Q;
  CompressionLevel : option string;
}.
End RawVolatilityData.

Module VolatilityOpportunity.
Record t : Type := mk {
  id : Q;
  name : string;
  currentPrice : Q;
  buyLimit : Q;
  dailyRange : Q;
  weeklyRange : Q;
  monthlyRange : Q;
  compressionRatio : Q;
  breakoutDirection : string;
  volumeConfirmation : string;
  potentialBreakoutProfit : Q;
  compressionLevel : string;
}.
End VolatilityOpportunity.

Import RawVolatilityData.

Definition processItem (item : RawVolatilityData.t) (index : nat)
  : VolatilityOpportunity.t :=
  {| VolatilityOpportunity.id := of_index (index + 1);
     VolatilityOpportunity.name := (ItemName item || "Unknown Item")%js;
     VolatilityOpportunity.currentPrice := (CurrentPrice item || 0)%js;
     VolatilityOpportunity.buyLimit := (BuyLimit item || 0)%js;
     VolatilityOpportunity.dailyRange := (DailyRange item || 0)%js;
     VolatilityOpportunity.weeklyRange := (WeeklyRange item || 0)%js;
     VolatilityOpportunity.monthlyRange := (MonthlyRange item || 0)%js;
     VolatilityOpportunity.compressionRatio :=
       (CompressionRatio item || 0)%js;
     VolatilityOpportunity.breakoutDirection :=
       (BreakoutDirection item || "NEUTRAL")%js;
     VolatilityOpportunity.volumeConfirmation :=
       (VolumeConfirmation item || "LOW_VOLUME")%js;
     VolatilityOpportunity.potentialBreakoutProfit :=
       (PotentialBreakoutProfit item || 0)%js;
     VolatilityOpportunity.compressionLevel :=
       (CompressionLevel item || "LOW_COMPRESSION")%js |}.

Definition processVolatilityData (data : list RawVolatilityData.t)
  : list VolatilityOpportunity.t :=
  map_index processItem data.

End VolatilityBreakout.

Module DipDetection.

Module RawDipData.
Record t : Type := mk {
  id : option Q;
  ItemName : option string;
  LowPrice : option Q;
  AvgLow : option Q;
  BuyLimit : option Q;
  pctROI : option Q;
}.
End RawDipData.

Module DipOpportunity.
Record t : Type := mk {
  id : Q;
  name : string;
  members : bool;
  icon : string;
  currentLow : Q;
  currentHigh : Q;
  avg24hLow : Q;
  avg1hLow : Q;
  avg5mLow : Q;
  dipMagnitude : Q;
  dipMagnitudePercent : Q;
  dipRecency : Q;
  dipRecencyPercent : Q;
  volume24hTotal : Q;
  volume1hTotal : Q;
  volume5mTotal : Q;
  volumeSurge : Q;
  buyLimit : Q;
  potentialProfit : Q;
  maxProfit4h : Q;
  roi : Q;
  historicalSupport : bool;
  volumeConsistency : Q;
  riskScore : Q;
}.
End DipOpportunity.

Import RawDipData.

(** The callback takes the item only: [data.map((item) => ...)]. *)
Definition processItem (item : RawDipData.t) : DipOpportunity.t :=
  {| DipOpportunity.id := (id item || 0)%js;
     DipOpportunity.name := (ItemName item || "Unknown Item")%js;
     DipOpportunity.members := true;
     DipOpportunity.icon := "";
     DipOpportunity.currentLow := (LowPrice item || 0)%js;
     DipOpportunity.currentHigh := (LowPrice item || 0)%js;
     DipOpportunity.avg24hLow := (AvgLow item || 0)%js;
     DipOpportunity.avg1hLow := (AvgLow item || 0)%js;
     DipOpportunity.avg5mLow := (AvgLow item || 0)%js;
     DipOpportunity.dipMagnitude :=
       (AvgLow item || 0)%js - (LowPrice item || 0)%js;
     DipOpportunity.dipMagnitudePercent := (pctROI item || 0)%js;
     DipOpportunity.dipRecency := 0;
     DipOpportunity.dipRecencyPercent := 0;
     DipOpportunity.volume24hTotal := 1000;
     DipOpportunity.volume1hTotal := 100;
     DipOpportunity.volume5mTotal := 10;
     DipOpportunity.volumeSurge := 1;
     DipOpportunity.buyLimit := (BuyLimit item || 0)%js;
     DipOpportunity.potentialProfit :=
       (AvgLow item || 0)%js - (LowPrice item || 0)%js;
     DipOpportunity.maxProfit4h :=
       ((AvgLow item || 0)%js - (LowPrice item || 0)%js)
       * (BuyLimit item || 0)%js;
     DipOpportunity.roi := (pctROI item || 0)%js;
     DipOpportunity.historicalSupport := true;
     DipOpportunity.volumeConsistency := 0.8;
     DipOpportunity.riskScore := 2 |}.

Definition processDipData (data : list RawDipData.t)
  : list DipOpportunity.t :=
  map_index (fun item _ => processItem item) data.

End DipDetection.

Module VolumeProfile.

Module RawVolumeData.
Record t : Type := mk {
  ItemName : option string;
  CurrentPrice : option Q;
  CurrentHigh : option Q;
  BuyLimit : option Q;
  LowPriceVolume : option Q;
  HighPriceVolume : option Q;
  WeeklyLowVolume : option Q;
  WeeklyHighVolume : option Q;
  VolumeImbalanceRatio : option Q;
  VolumePattern : option string;
  VolumeSurge : option string;
  SmartMoneySignal : option string;
  AccumulationProfit : option Q;
}.
End RawVolumeData.

Module VolumeProfileOpportunity.
Record t : Type := mk {
  id : Q;
  name : string;
  currentPrice : Q;
  currentHigh : Q;
  buyLimit : Q;
  lowPriceVolume : Q;
  highPriceVolume : Q;
  weeklyLowVolume : Q;
  weeklyHighVolume : Q;
  volumeImbalanceRatio : Q;
  volumePattern : string;
  volumeSurge : string;
  smartMoneySignal : string;
  accumulationProfit : Q;
}.
End VolumeProfileOpportunity.

Import RawVolumeData.

Definition processItem (item : RawVolumeData.t) (index : nat)
  : VolumeProfileOpportunity.t :=
  {| VolumeProfileOpportunity.id := of_index (index + 1);
     VolumeProfileOpportunity.name := (ItemName item || "Unknown Item")%js;
     VolumeProfileOpportunity.currentPrice := (CurrentPrice item || 0)%js;
     VolumeProfileOpportunity.currentHigh := (CurrentHigh item || 0)%js;
     VolumeProfileOpportunity.buyLimit := (BuyLimit item || 0)%js;
     VolumeProfileOpportunity.lowPriceVolume :=
       (LowPriceVolume item || 0)%js;
     VolumeProfileOpportunity.highPriceVolume :=
       (HighPriceVolume item || 0)%js;
     VolumeProfileOpportunity.weeklyLowVolume :=
       (WeeklyLowVolume item || 0)%js;
     VolumeProfileOpportunity.weeklyHighVolume :=
       (WeeklyHighVolume item || 0)%js;
     VolumeProfileOpportunity.volumeImbalanceRatio :=
       (VolumeImbalanceRatio item || 0)%js;
     VolumeProfileOpportunity.volumePattern :=
       (VolumePattern item || "BALANCED")%js;
     VolumeProfileOpportunity.volumeSurge :=
       (VolumeSurge item || "NORMAL_VOLUME")%js;
     VolumeProfileOpportunity.smartMoneySignal :=
       (SmartMoneySignal item || "NO_SMART_MONEY_SIGNAL")%js;
     VolumeProfileOpportunity.accumulationProfit :=
       (AccumulationProfit item || 0)%js |}.

Definition processVolumeProfileData (data : list RawVolumeData.t)
  : list VolumeProfileOpportunity.t :=
  map_index processItem data.

End VolumeProfile.

Module Confluence.

Module RawConfluenceData.
Record t : Type := mk {
  ItemName : option string;
  CurrentPrice : option Q;
  BuyLimit : option Q;
  FiveMinMean : option Q;
  HourlyMean : option Q;
  DailyMean : option Q;
  WeeklyMean : option Q;
  MonthlyMean : option Q;
  BullishConfluence : option Q;
  BearishConfluence : option Q;
  SignalStrength : option string;
  VolumeConfirmation : option string;
  PotentialProfit : option Q;
}.
End RawConfluenceData.

Module ConfluenceOpportunity.
Record t : Type := mk {
  id : Q;
  name : string;
  currentPrice : Q;
  buyLimit : Q;
  fiveMinMean : Q;
  hourlyMean : Q;
  dailyMean : Q;
  weeklyMean : Q;
  monthlyMean : Q;
  bullishConfluence : Q;
  bearishConfluence : Q;
  signalStrength : string;
  volumeConfirmation : string;
  potentialProfit : Q;
}.
End ConfluenceOpportunity.

Import RawConfluenceData.

Definition processItem (item : RawConfluenceData.t) (index : nat)
  : ConfluenceOpportunity.t :=
  {| ConfluenceOpportunity.id := of_index (index + 1);
     ConfluenceOpportunity.name := (ItemName item || "Unknown Item")%js;
     ConfluenceOpportunity.currentPrice := (CurrentPrice item || 0)%js;
     ConfluenceOpportunity.buyLimit := (BuyLimit item || 0)%js;
     ConfluenceOpportunity.fiveMinMean := (FiveMinMean item || 0)%js;
     ConfluenceOpportunity.hourlyMean := (HourlyMean item || 0)%js;
     ConfluenceOpportunity.dailyMean := (DailyMean item || 0)%js;
     ConfluenceOpportunity.weeklyMean := (WeeklyMean item || 0)%js;
     ConfluenceOpportunity.monthlyMean := (MonthlyMean item || 0)%js;
     ConfluenceOpportunity.bullishConfluence :=
       (BullishConfluence item || 0)%js;
     ConfluenceOpportunity.bearishConfluence :=
       (BearishConfluence item || 0)%js;
     ConfluenceOpportunity.signalStrength :=
       (SignalStrength item || "MIXED_SIGNALS")%js;
     ConfluenceOpportunity.volumeConfirmation :=
       (VolumeConfirmation item || "WEAK_VOLUME")%js;
     ConfluenceOpportunity.potentialProfit :=
       (PotentialProfit item || 0)%js |}.

Definition processConfluenceData (data : list RawConfluenceData.t)
  : list ConfluenceOpportunity.t :=
  map_index processItem data.

End Confluence.

Module RecipeArbitrage.

Module RawRecipeData.
Record t : Type := mk {
  ProductName : option string;
  ProductPrice : option Q;
  ProductBuyLimit : option Q;
  Ingredient1Name : option string;
  Ingredient1Price : option Q;
  Ingredient1Qty : option string;
  Ingredient2Name : option string;
  Ingredient2Price : option Q;
  Ingredient2Qty : option string;
  Ingredient3Name : option string;
  Ingredient3Price : option Q;
  Ingredient3Qty : option string;
  TotalIngredientCost : option Q;
  ProfitPerCraft : option Q;
  ROI : option Q;
  RecipeType : option string;
  QtyProduced : option Q;
  LiquidityLevel : option string;
}.
End RawRecipeData.

Module RecipeArbitrageOpportunity.
Record t : Type := mk {
  id : Q;
  productName : string;
  productPrice : Q;
  productBuyLimit : Q;
  ingredient1Name : string;
  ingredient1Price : Q;
  ingredient1Qty : string;
  ingredient2Name : string;
  ingredient2Price : Q;
  ingredient2Qty : string;
  ingredient3Name : string;
  ingredient3Price : Q;
  ingredient3Qty : string;
  totalIngredientCost : Q;
  profitPerCraft : Q;
  roi : Q;
  recipeType : string;
  qtyProduced : Q;
  liquidityLevel : string;
}.
End RecipeArbitrageOpportunity.

Import RawRecipeData.

Definition processItem (item : RawRecipeData.t) (index : nat)
  : RecipeArbitrageOpportunity.t :=
  {| RecipeArbitrageOpportunity.id := of_index (index + 1);
     RecipeArbitrageOpportunity.productName :=
       (ProductName item || "Unknown Product")%js;
     RecipeArbitrageOpportunity.productPrice := (ProductPrice item || 0)%js;
     RecipeArbitrageOpportunity.productBuyLimit :=
       (ProductBuyLimit item || 0)%js;
     RecipeArbitrageOpportunity.ingredient1Name :=
       (Ingredient1Name item || "")%js;
     RecipeArbitrageOpportunity.ingredient1Price :=
       (Ingredient1Price item || 0)%js;
     RecipeArbitrageOpportunity.ingredient1Qty :=
       (Ingredient1Qty item || "")%js;
     RecipeArbitrageOpportunity.ingredient2Name :=
       (Ingredient2Name item || "")%js;
     RecipeArbitrageOpportunity.ingredient2Price :=
       (Ingredient2Price item || 0)%js;
     RecipeArbitrageOpportunity.ingredient2Qty :=
       (Ingredient2Qty item || "")%js;
     RecipeArbitrageOpportunity.ingredient3Name :=
       (Ingredient3Name item || "")%js;
     RecipeArbitrageOpportunity.ingredient3Price :=
       (Ingredient3Price item || 0)%js;
     RecipeArbitrageOpportunity.ingredient3Qty :=
       (Ingredient3Qty item || "")%js;
     RecipeArbitrageOpportunity.totalIngredientCost :=
       (TotalIngredientCost item || 0)%js;
     RecipeArbitrageOpportunity.profitPerCraft :=
       (ProfitPerCraft item || 0)%js;
     RecipeArbitrageOpportunity.roi := (ROI item || 0)%js;
     RecipeArbitrageOpportunity.recipeType := (RecipeType item || "")%js;
     RecipeArbitrageOpportunity.qtyProduced := (QtyProduced item || 0)%js;
     RecipeArbitrageOpportunity.liquidityLevel :=
       (LiquidityLevel item || "LOW_LIQUIDITY")%js |}.

Definition processRecipeArbitrageData (data : list RawRecipeData.t)
  : list RecipeArbitrageOpportunity.t :=
  map_index processItem data.

End RecipeArbitrage.

(** ** The runtime: clock, network, exceptions and the module-level cache *)

Module Runtime.

(** What a [throw] carries; the handlers of the routes never inspect it. *)
Inductive exn : Type :=
| TypeError
| SyntaxError
| NetworkError.

Inductive result (A : Type) : Type :=
| Val (a : A)
| Raise (e : exn).
Arguments Raise {A} e.

(** The two source tiers.  [GitHubApi file] is the contents API asked for
    the raw media type; [RawCdn file t] is the flat file, [t] being the
    [Date.now()] of the cache-busting query [?t=]. *)
Inductive request : Type :=
| GitHubApi (file : string)
| RawCdn (file : string) (t : Z).

(** [summaryData.updated] and the [dataUpdated] built from it: the
    document is not validated, so this is any JSON value, or [undefined]
    when the document has no such key.  An object or an array is kept as
    [Compound text], [text] being the string it converts to, which is
    all that [Date] reads of it. *)
Inductive updatedField : Type :=
| Undefined
| Null
| Str (s : string)
| Number (q : Q)
| Boolean (b : bool)
| Compound (text : string).

Definition updated_truthy (u : updatedField) : bool :=
  match u with
  | Undefined => false
  | Null => false
  | Str s => truthy s
  | Number q => truthy q
  | Boolean b => b
  | Compound _ => true
  end.

(** [new Date(value).getTime()], [parse] being the reading of a date
    from text: a string is parsed, and so is the text of an object or an
    array; a number is clipped; [true] is 1, [false] and [null] are 0;
    [undefined] is no date. *)
Definition Date_of (parse : string -> number) (value : updatedField)
  : number :=
  match value with
  | Undefined => NaN
  | Null => Num 0
  | Str s => parse s
  | Number q => TimeClip q
  | Boolean b => Num (if b then 1 else 0)
  | Compound text => parse text
  end.

Section Summary.
Variable R : Type.

(** The value [response.json()] resolves to.  [JsonNull] is the JSON
    [null], the one value whose properties cannot be read; any other
    value is a [JsonDoc] with what its [items] and [updated] read.
    [items = None] is an [items] that is not an array (absent, or of
    another type): calling [.map] on it throws.  An element of the array
    is a record, or [None] for the JSON [null], whose properties cannot
    be read either.  (An element that is a number, a string or a boolean
    reads as a record without fields.) *)
Inductive summary : Type :=
| JsonNull
| JsonDoc (items : option (list (option R))) (updated : updatedField).

(** A response body: text that is not JSON, or a document. *)
Inductive payload : Type :=
| NotJson
| Json (d : summary).

Record response : Type := mkResponse {
  status : Z;
  body : payload;
}.

Definition ok (r : response) : bool :=
  ((200 <=? status r) && (status r <=? 299))%Z.

(** A [fetch] promise rejects (transport failure) or resolves. *)
Inductive outcome : Type :=
| Rejected
| Resolved (r : response).

(** The environment of a run.  The [n]-th effect of the run reads the
    clock [clock n] or gets the answer [network n req]; [dateGetTime]
    is [new Date(s).getTime()] for a string [s]. *)
Record world : Type := mkWorld {
  clock : nat -> Z;
  network : nat -> request -> outcome;
  dateGetTime : string -> number;
}.
End Summary.

Arguments JsonNull {R}.
Arguments NotJson {R}.
Arguments Rejected {R}.

Section State.
Variable O : Type.

(** [let cache: { data: O[]; timestamp: number } | null]. *)
Record cacheEntry : Type := mkEntry {
  data : list O;
  timestamp : number;
}.

(** The module's variable, the number of effects performed so far and
    the requests sent so far, oldest first. *)
Record state : Type := mkState {
  cache : option cacheEntry;
  step : nat;
  sent : list request;
}.

Definition initial : state :=
  {| cache := None; step := 0; sent := [] |}.
End State.

Arguments initial {O}.

Section Monad.
Variables R O : Type.

Definition M (A : Type) : Type :=
  world R -> state O -> state O * result A.

Definition ret {A} (a : A) : M A := fun _ s => (s, Val a).

Definition raise {A} (e : exn) : M A := fun _ s => (s, Raise e).

Definition bind {A B} (m : M A) (k : A -> M B) : M B :=
  fun w s =>
    match m w s with
    | (s', Val a) => k a w s'
    | (s', Raise e) => (s', Raise e)
    end.

(** [try { m } catch (e) { h e }]: the state reached when [m] threw is
    kept. *)
Definition try_catch {A} (m : M A) (h : exn -> M A) : M A :=
  fun w s =>
    match m w s with
    | (s', Val a) => (s', Val a)
    | (s', Raise e) => h e w s'
    end.

(** The state after a clock reading, after a request, after an
    assignment to the module's variable. *)
Definition tick (s : state O) : state O :=
  {| cache := cache s; step := S (step s); sent := sent s |}.

Definition sending (s : state O) (req : request) : state O :=
  {| cache := cache s; step := S (step s); sent := sent s ++ [req] |}.

Definition storing (s : state O) (e : cacheEntry O) : state O :=
  {| cache := Some e; step := step s; sent := sent s |}.

(** [Date.now()] *)
Definition Date_now : M Z :=
  fun w s => (tick s, Val (clock w (step s))).

(** [new Date(value).getTime()] *)
Definition Date_getTime (value : updatedField) : M number :=
  fun w s => (s, Val (Date_of (dateGetTime w) value)).

(** [await fetch(url, { headers })] *)
Definition fetch (req : request) : M (response R) :=
  fun w s =>
    match network w (step s) req with
    | Rejected => (sending s req, Raise NetworkError)
    | Resolved r => (sending s req, Val r)
    end.

(** [await response.json()] *)
Definition json (r : response R) : M (summary R) :=
  match body r with
  | NotJson => raise SyntaxError
  | Json d => ret d
  end.

(** [summaryData.items] and [summaryData.updated], read together. *)
Definition properties (d : summary R)
  : M (option (list (option R)) * updatedField) :=
  match d with
  | JsonNull => raise TypeError
  | JsonDoc items updated => ret (items, updated)
  end.

Definition read_cache : M (option (cacheEntry O)) :=
  fun _ s => (s, Val (cache s)).

Definition write_cache (e : cacheEntry O) : M unit :=
  fun _ s => (storing s e, Val tt).

End Monad.

Arguments ret {R O A} a.
Arguments raise {R O A} e.
Arguments Date_now {R O}.
Arguments Date_getTime {R O} value.
Arguments read_cache {R O}.
Arguments write_cache {R O} e.
Arguments fetch {R O} req.
Arguments json {R O} r.
Arguments properties {R O} d.

End Runtime.

Export Runtime.

Notation "x <- m ;; k" := (bind m (fun x => k))
  (at level 61, m at next level, right associativity) : js_scope.
Notation "'try' m 'catch' h" := (try_catch m h)
  (at level 61, m at level 60, h at level 60) : js_scope.

(** ** The six routes *)

Module Route.

(** One route module per category, named by its URL segment. *)
Inductive category : Type :=
| dip_detection
| alchemy_floors
| volatility_breakout
| volume_profile
| confluence
| recipe_arbitrage.

Definition categories : list category :=
  [dip_detection; alchemy_floors; volatility_breakout; volume_profile;
   confluence; recipe_arbitrage].

Definition Raw (c : category) : Type :=
  match c with
  | dip_detection => DipDetection.RawDipData.t
  | alchemy_floors => AlchemyFloors.RawAlchemyData.t
  | volatility_breakout => VolatilityBreakout.RawVolatilityData.t
  | volume_profile => VolumeProfile.RawVolumeData.t
  | confluence => Confluence.RawConfluenceData.t
  | recipe_arbitrage => RecipeArbitrage.RawRecipeData.t
  end.

Definition Opportunity (c : category) : Type :=
  match c with
  | dip_detection => DipDetection.DipOpportunity.t
  | alchemy_floors => AlchemyFloors.AlchemyOpportunity.t
  | volatility_breakout => VolatilityBreakout.VolatilityOpportunity.t
  | volume_profile => VolumeProfile.VolumeProfileOpportunity.t
  | confluence => Confluence.ConfluenceOpportunity.t
  | recipe_arbitrage => RecipeArbitrage.RecipeArbitrageOpportunity.t
  end.

(** The Normalizer of each route. *)
Definition processData (c : category)
  : list (Raw c) -> list (Opportunity c) :=
  match c with
  | dip_detection => DipDetection.processDipData
  | alchemy_floors => AlchemyFloors.processAlchemyData
  | volatility_breakout => VolatilityBreakout.processVolatilityData
  | volume_profile => VolumeProfile.processVolumeProfileData
  | confluence => Confluence.processConfluenceData
  | recipe_arbitrage => RecipeArbitrage.processRecipeArbitrageData
  end.

(** The summary document under [data/summaries/]. *)
Definition summaryFile (c : category) : string :=
  match c with
  | dip_detection => "dipped-items.json"
  | alchemy_floors => "alchemy-floors.json"
  | volatility_breakout => "volatility-breakout.json"
  | volume_profile => "volume-profile.json"
  | confluence => "confluence-analysis.json"
  | recipe_arbitrage => "recipe-arbitrage.json"
  end.

(** The [error] of the 500 response. *)
Definition errorMessage (c : category) : string :=
  match c with
  | dip_detection => "Failed to detect price dips"
  | alchemy_floors => "Failed to analyze alchemy opportunities"
  | volatility_breakout => "Failed to fetch volatility breakout data"
  | volume_profile => "Failed to fetch volume profile data"
  | confluence => "Failed to fetch confluence analysis data"
  | recipe_arbitrage => "Failed to fetch recipe arbitrage data"
  end.

(** Whether the cached branch writes [count]: the dip and alchemy routes
    do not. *)
Definition cachedCount (c : category) : bool :=
  match c with
  | dip_detection | alchemy_floors => false
  | _ => true
  end.

Record Metadata : Type := mkMetadata {
  description : string;
  strategy : string;
  riskLevel : string;
  methodology : string;
}.

(** Only the alchemy route adds [metadata] to a fresh response. *)
Definition metadataOf (c : category) : option Metadata :=
  match c with
  | alchemy_floors =>
      Some {| description :=
                "High alchemy opportunities using VeryGranular research methodology";
              strategy :=
                "Buy items below alch value, high alch for guaranteed profit";
              riskLevel := "Low - guaranteed profit from NPCs";
              methodology := "VeryGranular" |}
  | _ => None
  end.

(** [const CACHE_DURATION = 5 * 1000] *)
Definition CACHE_DURATION : Z := 5 * 1000.

(** The object handed to [NextResponse.json]; a key the object literal
    does not write is [None].  ([dataUpdated = Some Undefined] is a key
    written with the value [undefined].)  [data_] and [timestamp_] are
    the keys [data] and [timestamp], which the cache entry has too. *)
Record responseBody (O : Type) : Type := mkBody {
  success : bool;
  data_ : option (list O);
  error : option string;
  timestamp_ : number;
  dataUpdated : option updatedField;
  cached : option bool;
  count : option nat;
  metadata : option Metadata;
}.

Record httpResponse (O : Type) : Type := mkHttp {
  httpStatus : Z;
  httpBody : responseBody O;
}.

(** What [fetch...Data] returns: [{ items, updated }]. *)
Record fetched (R : Type) : Type := mkFetched {
  items : option (list (option R));
  updated : updatedField;
}.

(** The records of an array, unless one of its elements is [null]. *)
Fixpoint records {R : Type} (l : list (option R)) : option (list R) :=
  match l with
  | [] => Some []
  | Some x :: rest =>
      match records rest with
      | Some xs => Some (x :: xs)
      | None => None
      end
  | None :: _ => None
  end.

(** The records [process...Data] can map over: those of an [items] that
    is an array without [null]. *)
Definition usable {R : Type} (its : option (list (option R)))
  : option (list R) :=
  match its with
  | Some l => records l
  | None => None
  end.

Section Handler.
Variable c : category.

Local Abbreviation R := (Raw c).
Local Abbreviation O := (Opportunity c).
Local Open Scope js_scope.

(** [async function fetch...Data()] *)
Definition fetchData : M R O (fetched R) :=
  returned <-
    (try
       (githubResponse <-
          (try
             (r <- fetch (GitHubApi (summaryFile c)) ;;
              if negb (ok r)
              then (t <- Date_now ;; fetch (RawCdn (summaryFile c) t))
              else ret r)
           catch
             (fun _ =>
                t <- Date_now ;; fetch (RawCdn (summaryFile c) t))) ;;
        if ok githubResponse
        then
          (summaryData <- json githubResponse ;;
           p <- properties summaryData ;;
           ret (Some {| items := fst p; updated := snd p |}))
        else ret None)
     catch (fun _ => ret None)) ;;
  match returned with
  | Some r => ret r
  | None => ret {| items := Some []; updated := Null |}
  end.

(** [process...Data(result.items)]: [.map] of what is not an array
    throws, and so does the callback on an element that is [null], of
    which it reads a property.  Nothing else in the callback can
    throw. *)
Definition process (its : option (list (option R))) : M R O (list O) :=
  match its with
  | Some l =>
      match records l with
      | Some data => ret (processData c data)
      | None => raise TypeError
      end
  | None => raise TypeError
  end.

(** [result.updated ? new Date(result.updated).getTime() : now] *)
Definition dataTimestamp (u : updatedField) (now : Z) : M R O number :=
  if updated_truthy u then Date_getTime u else ret (Num now).

Definition cachedResponse (e : cacheEntry O) : httpResponse O :=
  {| httpStatus := 200;
     httpBody :=
       {| success := true;
          data_ := Some (data e);
          error := None;
          timestamp_ := timestamp e;
          dataUpdated := None;
          cached := Some true;
          count := if cachedCount c
                   then Some (List.length (data e)) else None;
          metadata := None |} |}.

Definition freshResponse (opportunities : list O) (ts : number)
  (u : updatedField) : httpResponse O :=
  {| httpStatus := 200;
     httpBody :=
       {| success := true;
          data_ := Some opportunities;
          error := None;
          timestamp_ := ts;
          dataUpdated := Some u;
          cached := Some false;
          count := Some (List.length opportunities);
          metadata := metadataOf c |} |}.

Definition errorResponse (t : Z) : httpResponse O :=
  {| httpStatus := 500;
     httpBody :=
       {| success := false;
          data_ := None;
          error := Some (errorMessage c);
          timestamp_ := Num t;
          dataUpdated := None;
          cached := None;
          count := None;
          metadata := None |} |}.

(** [cache && now - cache.timestamp < CACHE_DURATION] *)
Definition isFresh (entry : option (cacheEntry O)) (now : Z) : bool :=
  match entry with
  | Some e => elapsed_lt now (timestamp e) CACHE_DURATION
  | None => false
  end.

(** The [try] block of [GET]. *)
Definition tryBlock : M R O (httpResponse O) :=
  now <- Date_now ;;
  entry <- read_cache ;;
  match (if isFresh entry now then entry else None) with
  | Some e => ret (cachedResponse e)
  | None =>
      result <- fetchData ;;
      opportunities <- process (items result) ;;
      ts <- dataTimestamp (updated result) now ;;
      _ <- write_cache {| data := opportunities; timestamp := ts |} ;;
      ret (freshResponse opportunities ts (updated result))
  end.

(** [export async function GET()] *)
Definition GET : M R O (httpResponse O) :=
  try tryBlock
  catch (fun _ => t <- Date_now ;; ret (errorResponse t)).

(** The value of [dataTimestamp] in the world [w]. *)
Definition dataTime (w : world R) (u : updatedField) (now : Z) : number :=
  if updated_truthy u then Date_of (dateGetTime w) u else Num now.

(** What [fetch...Data] makes of the response it ends with. *)
Definition settle (r : response R) : fetched R :=
  if ok r then
    match body r with
    | Json (JsonDoc its u) => {| items := its; updated := u |}
    | _ => {| items := Some []; updated := Null |}
    end
  else {| items := Some []; updated := Null |}.

(** What [fetch...Data] returns when no response is usable. *)
Definition noData : fetched R := {| items := Some []; updated := Null |}.

(** The runs of [fetch...Data], spelled out by the answers of the
    network: the state it ends in and the value it returns. *)
Definition fetchDataRun (w : world R) (s : state O)
  : state O * fetched R :=
  let primary := GitHubApi (summaryFile c) in
  let secondary (s' : state O) :=
    RawCdn (summaryFile c) (clock w (step s')) in
  let s1 := sending s primary in
  let s3 := sending (tick s1) (secondary s1) in
  let s5 := sending (tick s3) (secondary s3) in
  match network w (step s) primary with
  | Resolved r =>
      if ok r then (s1, settle r)
      else
        match network w (step (tick s1)) (secondary s1) with
        | Resolved r2 => (s3, settle r2)
        | Rejected =>
            match network w (step (tick s3)) (secondary s3) with
            | Resolved r3 => (s5, settle r3)
            | Rejected => (s5, noData)
            end
        end
  | Rejected =>
      match network w (step (tick s1)) (secondary s1) with
      | Resolved r2 => (s3, settle r2)
      | Rejected => (s3, noData)
      end
  end.

End Handler.

End Route.

(** ** The analytics page: client-side transformations *)

Module AnalyticsPage.

Module RawDipData.
Record t : Type := mk {
  id : option Q;
  name : option string;
  currentPrice : option Q;
  currentLow : option Q;
  avgPrice24h : option Q;
  avg24hLow : option Q;
  priceDropPercent : option Q;
  dipMagnitudePercent : option Q;
  volumeSurge : option Q;
  buyLimit : option Q;
  recoveryPotential : option Q;
  potentialProfit : option Q;
  members : option bool;
  estimatedProfit : option Q;
  maxProfit4h : option Q;
}.
End RawDipData.

Module DipItem.
Record t : Type := mk {
  id : Q;
  name : string;
  currentPrice : Q;
  avgPrice24h : Q;
  priceDropPercent : Q;
  volumeSpike : Q;
  buyLimit : Q;
  recoveryPotential : Q;
  members : bool;
  buyRange : string;
  sellRange : string;
  estimatedProfit : Q;
}.
End DipItem.

Module RawAlchemyData.
Record t : Type := mk {
  id : option Q;
  name : option string;
  currentLow : option Q;
  priceFloor : option Q;
  alchPrice : option Q;
  potentialProfit : option Q;
  roi : option Q;
  buyLimit : option Q;
  members : option bool;
}.
End RawAlchemyData.

Module AlchemyItem.
Record t : Type := mk {
  id : Q;
  name : string;
  currentPrice : Q;
  priceFloor : Q;
  alchValue : Q;
  profitMargin : Q;
  roi : Q;
  buyLimit : Q;
  members : bool;
}.
End AlchemyItem.

Module RawVolatilityData.
Record t : Type := mk {
  id : option Q;
  name : option string;
  currentPrice : option Q;
  buyLimit : option Q;
  compressionRatio : option Q;
  breakoutDirection : option string;
  volumeConfirmation : option string;
  potentialBreakoutProfit : option Q;
  compressionLevel : option string;
}.
End RawVolatilityData.

Module VolatilityItem.
Record t : Type := mk {
  id : Q;
  name : string;
  currentPrice : Q;
  buyLimit : Q;
  compressionRatio : Q;
  breakoutDirection : string;
  volumeConfirmation : string;
  potentialBreakoutProfit : Q;
  compressionLevel : string;
}.
End VolatilityItem.

Module RawVolumeProfileData.
Record t : Type := mk {
  id : option Q;
  name : option string;
  currentPrice : option Q;
  buyLimit : option Q;
  volumePattern : option string;
  volumeSurge : option string;
  smartMoneySignal : option string;
  accumulationProfit : option Q;
}.
End RawVolumeProfileData.

Module VolumeProfileItem.
Record t : Type := mk {
  id : Q;
  name : string;
  currentPrice : Q;
  buyLimit : Q;
  volumePattern : string;
  volumeSurge : string;
  smartMoneySignal : string;
  accumulationProfit : Q;
}.
End VolumeProfileItem.

Module RawConfluenceData.
Record t : Type := mk {
  id : option Q;
  name : option string;
  currentPrice : option Q;
  buyLimit : option Q;
  bullishConfluence : option Q;
  bearishConfluence : option Q;
  signalStrength : option string;
  volumeConfirmation : option string;
  potentialProfit : option Q;
}.
End RawConfluenceData.

Module ConfluenceItem.
Record t : Type := mk {
  id : Q;
  name : string;
  currentPrice : Q;
  buyLimit : Q;
  bullishConfluence : Q;
  bearishConfluence : Q;
  signalStrength : string;
  volumeConfirmation : string;
  potentialProfit : Q;
}.
End ConfluenceItem.

Module RawRecipeArbitrageData.
Record t : Type := mk {
  id : option Q;
  productName : option string;
  productPrice : option Q;
  productBuyLimit : option Q;
  ingredient1Name : option string;
  totalIngredientCost : option Q;
  profitPerCraft : option Q;
  roi : option Q;
  recipeType : option string;
  liquidityLevel : option string;
}.
End RawRecipeArbitrageData.

Module RecipeArbitrageItem.
Record t : Type := mk {
  id : Q;
  productName : string;
  productPrice : Q;
  productBuyLimit : Q;
  ingredient1Name : string;
  totalIngredientCost : Q;
  profitPerCraft : Q;
  roi : Q;
  recipeType : string;
  liquidityLevel : string;
}.
End RecipeArbitrageItem.

Section Transform.

(** [formatGP] prints a double through [toFixed]; the text it gives is
    taken as given. *)
Variable formatGP : Q -> string.

Definition transformDip (item : RawDipData.t) : DipItem.t :=
  let currentLow :=
    (RawDipData.currentPrice item ||? RawDipData.currentLow item || 0)%js
  in
  let avgLow :=
    (RawDipData.avgPrice24h item ||? RawDipData.avg24hLow item || 0)%js
  in
  {| DipItem.id := (RawDipData.id item || 0)%js;
     DipItem.name := (RawDipData.name item || "Unknown Item")%js;
     DipItem.currentPrice := currentLow;
     DipItem.avgPrice24h := avgLow;
     DipItem.priceDropPercent :=
       (RawDipData.priceDropPercent item
        ||? RawDipData.dipMagnitudePercent item || 0)%js;
     DipItem.volumeSpike := (RawDipData.volumeSurge item || 1)%js;
     DipItem.buyLimit := (RawDipData.buyLimit item || 0)%js;
     DipItem.recoveryPotential :=
       (RawDipData.recoveryPotential item
        ||? RawDipData.potentialProfit item || 0)%js;
     DipItem.members := (RawDipData.members item || false)%js;
     DipItem.buyRange :=
       formatGP (currentLow * 0.98) ++ " - "
       ++ formatGP (currentLow * 1.02);
     DipItem.sellRange :=
       formatGP (avgLow * 0.98) ++ " - " ++ formatGP (avgLow * 1.02);
     DipItem.estimatedProfit :=
       (RawDipData.estimatedProfit item
        ||? RawDipData.maxProfit4h item || 0)%js |}.

Definition transformDipsDataFromAPI (data : list RawDipData.t)
  : list DipItem.t :=
  map_index (fun item _ => transformDip item) (slice0 50 data).

End Transform.

Definition transformAlchemy (item : RawAlchemyData.t) : AlchemyItem.t :=
  {| AlchemyItem.id := (RawAlchemyData.id item || 0)%js;
     AlchemyItem.name := (RawAlchemyData.name item || "Unknown Item")%js;
     AlchemyItem.currentPrice := (RawAlchemyData.currentLow item || 0)%js;
     AlchemyItem.priceFloor := (RawAlchemyData.priceFloor item || 0)%js;
     AlchemyItem.alchValue := (RawAlchemyData.alchPrice item || 0)%js;
     AlchemyItem.profitMargin :=
       (RawAlchemyData.potentialProfit item || 0)%js;
     AlchemyItem.roi := (RawAlchemyData.roi item || 0)%js;
     AlchemyItem.buyLimit := (RawAlchemyData.buyLimit item || 0)%js;
     AlchemyItem.members := (RawAlchemyData.members item || false)%js |}.

Definition transformAlchemyDataFromAPI (data : list RawAlchemyData.t)
  : list AlchemyItem.t :=
  map_index (fun item _ => transformAlchemy item) (slice0 50 data).

Definition transformVolatility (item : RawVolatilityData.t) (index : nat)
  : VolatilityItem.t :=
  {| VolatilityItem.id :=
       (RawVolatilityData.id item || of_index (index + 1))%js;
     VolatilityItem.name :=
       (RawVolatilityData.name item || "Unknown Item")%js;
     VolatilityItem.currentPrice :=
       (RawVolatilityData.currentPrice item || 0)%js;
     VolatilityItem.buyLimit := (RawVolatilityData.buyLimit item || 0)%js;
     VolatilityItem.compressionRatio :=
       (RawVolatilityData.compressionRatio item || 0)%js;
     VolatilityItem.breakoutDirection :=
       (RawVolatilityData.breakoutDirection item || "NEUTRAL")%js;
     VolatilityItem.volumeConfirmation :=
       (RawVolatilityData.volumeConfirmation item || "LOW_VOLUME")%js;
     VolatilityItem.potentialBreakoutProfit :=
       (RawVolatilityData.potentialBreakoutProfit item || 0)%js;
     VolatilityItem.compressionLevel :=
       (RawVolatilityData.compressionLevel item || "LOW_COMPRESSION")%js |}.

Definition transformVolatilityDataFromAPI
  (data : list RawVolatilityData.t) : list VolatilityItem.t :=
  map_index transformVolatility (slice0 50 data).

Definition transformVolumeProfile (item : RawVolumeProfileData.t)
  (index : nat) : VolumeProfileItem.t :=
  {| VolumeProfileItem.id :=
       (RawVolumeProfileData.id item || of_index (index + 1))%js;
     VolumeProfileItem.name :=
       (RawVolumeProfileData.name item || "Unknown Item")%js;
     VolumeProfileItem.currentPrice :=
       (RawVolumeProfileData.currentPrice item || 0)%js;
     VolumeProfileItem.buyLimit :=
       (RawVolumeProfileData.buyLimit item || 0)%js;
     VolumeProfileItem.volumePattern :=
       (RawVolumeProfileData.volumePattern item || "BALANCED")%js;
     VolumeProfileItem.volumeSurge :=
       (RawVolumeProfileData.volumeSurge item || "NORMAL_VOLUME")%js;
     VolumeProfileItem.smartMoneySignal :=
       (RawVolumeProfileData.smartMoneySignal item
        || "NO_SMART_MONEY_SIGNAL")%js;
     VolumeProfileItem.accumulationProfit :=
       (RawVolumeProfileData.accumulationProfit item || 0)%js |}.

Definition transformVolumeProfileDataFromAPI
  (data : list RawVolumeProfileData.t) : list VolumeProfileItem.t :=
  map_index transformVolumeProfile (slice0 50 data).

Definition transformConfluence (item : RawConfluenceData.t) (index : nat)
  : ConfluenceItem.t :=
  {| ConfluenceItem.id :=
       (RawConfluenceData.id item || of_index (index + 1))%js;
     ConfluenceItem.name :=
       (RawConfluenceData.name item || "Unknown Item")%js;
     ConfluenceItem.currentPrice :=
       (RawConfluenceData.currentPrice item || 0)%js;
     ConfluenceItem.buyLimit := (RawConfluenceData.buyLimit item || 0)%js;
     ConfluenceItem.bullishConfluence :=
       (RawConfluenceData.bullishConfluence item || 0)%js;
     ConfluenceItem.bearishConfluence :=
       (RawConfluenceData.bearishConfluence item || 0)%js;
     ConfluenceItem.signalStrength :=
       (RawConfluenceData.signalStrength item || "MIXED_SIGNALS")%js;
     ConfluenceItem.volumeConfirmation :=
       (RawConfluenceData.volumeConfirmation item || "WEAK_VOLUME")%js;
     ConfluenceItem.potentialProfit :=
       (RawConfluenceData.potentialProfit item || 0)%js |}.

Definition transformConfluenceDataFromAPI
  (data : list RawConfluenceData.t) : list ConfluenceItem.t :=
  map_index transformConfluence (slice0 50 data).

Definition transformRecipeArbitrage (item : RawRecipeArbitrageData.t)
  (index : nat) : RecipeArbitrageItem.t :=
  {| RecipeArbitrageItem.id :=
       (RawRecipeArbitrageData.id item || of_index (index + 1))%js;
     RecipeArbitrageItem.productName :=
       (RawRecipeArbitrageData.productName item || "Unknown Product")%js;
     RecipeArbitrageItem.productPrice :=
       (RawRecipeArbitrageData.productPrice item || 0)%js;
     RecipeArbitrageItem.productBuyLimit :=
       (RawRecipeArbitrageData.productBuyLimit item || 0)%js;
     RecipeArbitrageItem.ingredient1Name :=
       (RawRecipeArbitrageData.ingredient1Name item || "")%js;
     RecipeArbitrageItem.totalIngredientCost :=
       (RawRecipeArbitrageData.totalIngredientCost item || 0)%js;
     RecipeArbitrageItem.profitPerCraft :=
       (RawRecipeArbitrageData.profitPerCraft item || 0)%js;
     RecipeArbitrageItem.roi := (RawRecipeArbitrageData.roi item || 0)%js;
     RecipeArbitrageItem.recipeType :=
       (RawRecipeArbitrageData.recipeType item || "")%js;
     RecipeArbitrageItem.liquidityLevel :=
       (RawRecipeArbitrageData.liquidityLevel item || "LOW_LIQUIDITY")%js |}.

Definition transformRecipeArbitrageDataFromAPI
  (data : list RawRecipeArbitrageData.t) : list RecipeArbitrageItem.t :=
  map_index transformRecipeArbitrage (slice0 50 data).

(** The rows a table renders: [data.slice(0, 20).map((item, index) => ...)],
    one [<tr>] per pair. *)
Definition tableRows {A} (data : list A) : list (A * nat) :=
  map_index (fun item index => (item, index)) (slice0 20 data).

Definition DipsTable := @tableRows DipItem.t.
Definition AlchemyTable := @tableRows AlchemyItem.t.
Definition VolatilityTable := @tableRows VolatilityItem.t.
Definition VolumeProfileTable := @tableRows VolumeProfileItem.t.
Definition ConfluenceTable := @tableRows ConfluenceItem.t.
Definition RecipeArbitrageTable := @tableRows RecipeArbitrageItem.t.

(** [fetchData]: the "data as of" time, from the [dataUpdated] of the six
    results; [None] is [null], [Some t] a [Date] of time value [t]. *)
Section FetchData.
Variable dateGetTime : string -> number.

(** [new Date(ts).getTime()] *)
Definition getTime (ts : updatedField) : number :=
  Date_of dateGetTime ts.

(** [xs.filter(Boolean)], then [length > 0 ? new Date(Math.max(...)) : null] *)
Definition latestOf (dataUpdated : list updatedField) : option number :=
  let dataTimestamps := filter updated_truthy dataUpdated in
  match map getTime dataTimestamps with
  | t :: ts => Some (Math_max t ts)
  | [] => None
  end.

Definition latestDataUpdate
  (dipsResult alchemyResult volatilityResult volumeProfileResult
     confluenceResult recipeArbitrageResult : updatedField)
  : option number :=
  latestOf [dipsResult; alchemyResult; volatilityResult;
            volumeProfileResult; confluenceResult;
            recipeArbitrageResult].
End FetchData.

End AnalyticsPage.

(** ** Views of the routes used by the statements *)

Module View.

Import Route.

(** The callback each Normalizer maps over its input. *)
Definition processOne (c : category) : Raw c -> nat -> Opportunity c :=
  match c with
  | dip_detection => fun item _ => DipDetection.processItem item
  | alchemy_floors => AlchemyFloors.processItem
  | volatility_breakout => VolatilityBreakout.processItem
  | volume_profile => VolumeProfile.processItem
  | confluence => Confluence.processItem
  | recipe_arbitrage => RecipeArbitrage.processItem
  end.

(** The [id] of an opportunity: a number, or a string on the alchemy
    route. *)
Inductive identifier : Type :=
| IdNumber (q : Q)
| IdString (s : string).

Definition identifierOf (c : category) : Opportunity c -> identifier :=
  match c with
  | dip_detection => fun o => IdNumber (DipDetection.DipOpportunity.id o)
  | alchemy_floors =>
      fun o => IdString (AlchemyFloors.AlchemyOpportunity.id o)
  | volatility_breakout =>
      fun o => IdNumber (VolatilityBreakout.VolatilityOpportunity.id o)
  | volume_profile =>
      fun o => IdNumber (VolumeProfile.VolumeProfileOpportunity.id o)
  | confluence =>
      fun o => IdNumber (Confluence.ConfluenceOpportunity.id o)
  | recipe_arbitrage =>
      fun o => IdNumber (RecipeArbitrage.RecipeArbitrageOpportunity.id o)
  end.

(** The identifier each route gives the record at index [i]: the dip
    route passes the raw [id] through, [0] standing in for an absent or
    zero one; the alchemy route writes the index after a prefix; the
    other four count from one. *)
Definition identifierAt (c : category) : Raw c -> nat -> identifier :=
  match c with
  | dip_detection =>
      fun item _ =>
        IdNumber match DipDetection.RawDipData.id item with
                 | Some q => if truthy q then q else 0
                 | None => 0
                 end
  | alchemy_floors =>
      fun _ i => IdString ("alchemy-" ++ string_of_index i)
  | volatility_breakout => fun _ i => IdNumber (of_index (i + 1))
  | volume_profile => fun _ i => IdNumber (of_index (i + 1))
  | confluence => fun _ i => IdNumber (of_index (i + 1))
  | recipe_arbitrage => fun _ i => IdNumber (of_index (i + 1))
  end.

(** The numeric fields a Normalizer reads from one raw field: the raw
    property and the property of the opportunity it fills. *)
Definition numericFields (c : category)
  : list ((Raw c -> option Q) * (Opportunity c -> Q)) :=
  match c with
  | dip_detection =>
      [ (DipDetection.RawDipData.id, DipDetection.DipOpportunity.id);
        (DipDetection.RawDipData.LowPrice,
         DipDetection.DipOpportunity.currentLow);
        (DipDetection.RawDipData.LowPrice,
         DipDetection.DipOpportunity.currentHigh);
        (DipDetection.RawDipData.AvgLow,
         DipDetection.DipOpportunity.avg24hLow);
        (DipDetection.RawDipData.AvgLow,
         DipDetection.DipOpportunity.avg1hLow);
        (DipDetection.RawDipData.AvgLow,
         DipDetection.DipOpportunity.avg5mLow);
        (DipDetection.RawDipData.pctROI,
         DipDetection.DipOpportunity.dipMagnitudePercent);
        (DipDetection.RawDipData.BuyLimit,
         DipDetection.DipOpportunity.buyLimit);
        (DipDetection.RawDipData.pctROI, DipDetection.DipOpportunity.roi) ]
  | alchemy_floors =>
      [ (AlchemyFloors.RawAlchemyData.LowPrice,
         AlchemyFloors.AlchemyOpportunity.currentLow);
        (AlchemyFloors.RawAlchemyData.PriceFloor,
         AlchemyFloors.AlchemyOpportunity.priceFloor);
        (AlchemyFloors.RawAlchemyData.BuyLimit,
         AlchemyFloors.AlchemyOpportunity.buyLimit);
        (AlchemyFloors.RawAlchemyData.pctROI,
         AlchemyFloors.AlchemyOpportunity.roi);
        (AlchemyFloors.RawAlchemyData.PriceFloor,
         AlchemyFloors.AlchemyOpportunity.alchPrice) ]
  | volatility_breakout =>
      [ (VolatilityBreakout.RawVolatilityData.CurrentPrice,
         VolatilityBreakout.VolatilityOpportunity.currentPrice);
        (VolatilityBreakout.RawVolatilityData.BuyLimit,
         VolatilityBreakout.VolatilityOpportunity.buyLimit);
        (VolatilityBreakout.RawVolatilityData.DailyRange,
         VolatilityBreakout.VolatilityOpportunity.dailyRange);
        (VolatilityBreakout.RawVolatilityData.WeeklyRange,
         VolatilityBreakout.VolatilityOpportunity.weeklyRange);
        (VolatilityBreakout.RawVolatilityData.MonthlyRange,
         VolatilityBreakout.VolatilityOpportunity.monthlyRange);
        (VolatilityBreakout.RawVolatilityData.CompressionRatio,
         VolatilityBreakout.VolatilityOpportunity.compressionRatio);
        (VolatilityBreakout.RawVolatilityData.PotentialBreakoutProfit,
         VolatilityBreakout.VolatilityOpportunity.potentialBreakoutProfit) ]
  | volume_profile =>
      [ (VolumeProfile.RawVolumeData.CurrentPrice,
         VolumeProfile.VolumeProfileOpportunity.currentPrice);
        (VolumeProfile.RawVolumeData.CurrentHigh,
         VolumeProfile.VolumeProfileOpportunity.currentHigh);
        (VolumeProfile.RawVolumeData.BuyLimit,
         VolumeProfile.VolumeProfileOpportunity.buyLimit);
        (VolumeProfile.RawVolumeData.LowPriceVolume,
         VolumeProfile.VolumeProfileOpportunity.lowPriceVolume);
        (VolumeProfile.RawVolumeData.HighPriceVolume,
         VolumeProfile.VolumeProfileOpportunity.highPriceVolume);
        (VolumeProfile.RawVolumeData.WeeklyLowVolume,
         VolumeProfile.VolumeProfileOpportunity.weeklyLowVolume);
        (VolumeProfile.RawVolumeData.WeeklyHighVolume,
         VolumeProfile.VolumeProfileOpportunity.weeklyHighVolume);
        (VolumeProfile.RawVolumeData.VolumeImbalanceRatio,
         VolumeProfile.VolumeProfileOpportunity.volumeImbalanceRatio);
        (VolumeProfile.RawVolumeData.AccumulationProfit,
         VolumeProfile.VolumeProfileOpportunity.accumulationProfit) ]
  | confluence =>
      [ (Confluence.RawConfluenceData.CurrentPrice,
         Confluence.ConfluenceOpportunity.currentPrice);
        (Confluence.RawConfluenceData.BuyLimit,
         Confluence.ConfluenceOpportunity.buyLimit);
        (Confluence.RawConfluenceData.FiveMinMean,
         Confluence.ConfluenceOpportunity.fiveMinMean);
        (Confluence.RawConfluenceData.HourlyMean,
         Confluence.ConfluenceOpportunity.hourlyMean);
        (Confluence.RawConfluenceData.DailyMean,
         Confluence.ConfluenceOpportunity.dailyMean);
        (Confluence.RawConfluenceData.WeeklyMean,
         Confluence.ConfluenceOpportunity.weeklyMean);
        (Confluence.RawConfluenceData.MonthlyMean,
         Confluence.ConfluenceOpportunity.monthlyMean);
        (Confluence.RawConfluenceData.BullishConfluence,
         Confluence.ConfluenceOpportunity.bullishConfluence);
        (Confluence.RawConfluenceData.BearishConfluence,
         Confluence.ConfluenceOpportunity.bearishConfluence);
        (Confluence.RawConfluenceData.PotentialProfit,
         Confluence.ConfluenceOpportunity.potentialProfit) ]
  | recipe_arbitrage =>
      [ (RecipeArbitrage.RawRecipeData.ProductPrice,
         RecipeArbitrage.RecipeArbitrageOpportunity.productPrice);
        (RecipeArbitrage.RawRecipeData.ProductBuyLimit,
         RecipeArbitrage.RecipeArbitrageOpportunity.productBuyLimit);
        (RecipeArbitrage.RawRecipeData.Ingredient1Price,
         RecipeArbitrage.RecipeArbitrageOpportunity.ingredient1Price);
        (RecipeArbitrage.RawRecipeData.Ingredient2Price,
         RecipeArbitrage.RecipeArbitrageOpportunity.ingredient2Price);
        (RecipeArbitrage.RawRecipeData.Ingredient3Price,
         RecipeArbitrage.RecipeArbitrageOpportunity.ingredient3Price);
        (RecipeArbitrage.RawRecipeData.TotalIngredientCost,
         RecipeArbitrage.RecipeArbitrageOpportunity.totalIngredientCost);
        (RecipeArbitrage.RawRecipeData.ProfitPerCraft,
         RecipeArbitrage.RecipeArbitrageOpportunity.profitPerCraft);
        (RecipeArbitrage.RawRecipeData.ROI,
         RecipeArbitrage.RecipeArbitrageOpportunity.roi);
        (RecipeArbitrage.RawRecipeData.QtyProduced,
         RecipeArbitrage.RecipeArbitrageOpportunity.qtyProduced) ]
  end.

(** The string fields a Normalizer reads from one raw field, each with
    the default the route writes after [||]. *)
Definition stringFields (c : category)
  : list ((Raw c -> option string) * (Opportunity c -> string) * string) :=
  match c with
  | dip_detection =>
      [ (DipDetection.RawDipData.ItemName,
         DipDetection.DipOpportunity.name, "Unknown Item") ]
  | alchemy_floors =>
      [ (AlchemyFloors.RawAlchemyData.ItemName,
         AlchemyFloors.AlchemyOpportunity.name, "Unknown Item") ]
  | volatility_breakout =>
      [ (VolatilityBreakout.RawVolatilityData.ItemName,
         VolatilityBreakout.VolatilityOpportunity.name, "Unknown Item");
        (VolatilityBreakout.RawVolatilityData.BreakoutDirection,
         VolatilityBreakout.VolatilityOpportunity.breakoutDirection,
         "NEUTRAL");
        (VolatilityBreakout.RawVolatilityData.VolumeConfirmation,
         VolatilityBreakout.VolatilityOpportunity.volumeConfirmation,
         "LOW_VOLUME");
        (VolatilityBreakout.RawVolatilityData.CompressionLevel,
         VolatilityBreakout.VolatilityOpportunity.compressionLevel,
         "LOW_COMPRESSION") ]
  | volume_profile =>
      [ (VolumeProfile.RawVolumeData.ItemName,
         VolumeProfile.VolumeProfileOpportunity.name, "Unknown Item");
        (VolumeProfile.RawVolumeData.VolumePattern,
         VolumeProfile.VolumeProfileOpportunity.volumePattern, "BALANCED");
        (VolumeProfile.RawVolumeData.VolumeSurge,
         VolumeProfile.VolumeProfileOpportunity.volumeSurge,
         "NORMAL_VOLUME");
        (VolumeProfile.RawVolumeData.SmartMoneySignal,
         VolumeProfile.VolumeProfileOpportunity.smartMoneySignal,
         "NO_SMART_MONEY_SIGNAL") ]
  | confluence =>
      [ (Confluence.RawConfluenceData.ItemName,
         Confluence.ConfluenceOpportunity.name, "Unknown Item");
        (Confluence.RawConfluenceData.SignalStrength,
         Confluence.ConfluenceOpportunity.signalStrength, "MIXED_SIGNALS");
        (Confluence.RawConfluenceData.VolumeConfirmation,
         Confluence.ConfluenceOpportunity.volumeConfirmation,
         "WEAK_VOLUME") ]
  | recipe_arbitrage =>
      [ (RecipeArbitrage.RawRecipeData.ProductName,
         RecipeArbitrage.RecipeArbitrageOpportunity.productName,
         "Unknown Product");
        (RecipeArbitrage.RawRecipeData.Ingredient1Name,
         RecipeArbitrage.RecipeArbitrageOpportunity.ingredient1Name, "");
        (RecipeArbitrage.RawRecipeData.Ingredient1Qty,
         RecipeArbitrage.RecipeArbitrageOpportunity.ingredient1Qty, "");
        (RecipeArbitrage.RawRecipeData.Ingredient2Name,
         RecipeArbitrage.RecipeArbitrageOpportunity.ingredient2Name, "");
        (RecipeArbitrage.RawRecipeData.Ingredient2Qty,
         RecipeArbitrage.RecipeArbitrageOpportunity.ingredient2Qty, "");
        (RecipeArbitrage.RawRecipeData.Ingredient3Name,
         RecipeArbitrage.RecipeArbitrageOpportunity.ingredient3Name, "");
        (RecipeArbitrage.RawRecipeData.Ingredient3Qty,
         RecipeArbitrage.RecipeArbitrageOpportunity.ingredient3Qty, "");
        (RecipeArbitrage.RawRecipeData.RecipeType,
         RecipeArbitrage.RecipeArbitrageOpportunity.recipeType, "");
        (RecipeArbitrage.RawRecipeData.LiquidityLevel,
         RecipeArbitrage.RecipeArbitrageOpportunity.liquidityLevel,
         "LOW_LIQUIDITY") ]
  end.

(** The volume fields of the dip route, which no raw field feeds. *)
Definition dipVolumeFields
  : list ((DipDetection.DipOpportunity.t -> Q) * Q) :=
  [ (DipDetection.DipOpportunity.volume24hTotal, 1000);
    (DipDetection.DipOpportunity.volume1hTotal, 100);
    (DipDetection.DipOpportunity.volume5mTotal, 10);
    (DipDetection.DipOpportunity.volumeSurge, 1) ].

(** A raw string field as the route reads it: the default replaces an
    absent field and the empty string alike. *)
Definition stringOrDefault (x : option string) (d : string) : string :=
  match x with
  | Some EmptyString => d
  | Some s => s
  | None => d
  end.

(** The response [fetch...Data] ends with when its first effect is the
    [n]-th of the run.  It asks the contents API and ends with its
    response when that has a success status.  When the status is another
    it asks for the flat file, and when that request is rejected it asks
    for the flat file once more.  When the request to the contents API
    is rejected it asks for the flat file once.  A request for the flat
    file carries the clock read just before it.  [None]: the last
    request asked was rejected. *)
Definition lastAnswer (c : category) (w : world (Raw c)) (n : nat)
  : option (response (Raw c)) :=
  let flat (k : nat) :=
    network w (S k) (RawCdn (summaryFile c) (clock w k)) in
  match network w n (GitHubApi (summaryFile c)) with
  | Resolved r =>
      if ok r then Some r
      else
        match flat (1 + n)%nat with
        | Resolved r2 => Some r2
        | Rejected =>
            match flat (3 + n)%nat with
            | Resolved r3 => Some r3
            | Rejected => None
            end
        end
  | Rejected =>
      match flat (1 + n)%nat with
      | Resolved r2 => Some r2
      | Rejected => None
      end
  end.

(** The document a response carries: the [items] and the [updated] of a
    JSON value other than [null] that comes with a success status. *)
Definition documentOf {R : Type} (a : option (response R))
  : option (option (list (option R)) * updatedField) :=
  match a with
  | Some r =>
      if ok r then
        match body r with
        | Json (JsonDoc its u) => Some (its, u)
        | Json JsonNull => None
        | NotJson => None
        end
      else None
  | None => None
  end.

(** The error message of each route. *)
Definition messageOf (c : category) : string :=
  match c with
  | dip_detection => "Failed to detect price dips"
  | alchemy_floors => "Failed to analyze alchemy opportunities"
  | volatility_breakout => "Failed to fetch volatility breakout data"
  | volume_profile => "Failed to fetch volume profile data"
  | confluence => "Failed to fetch confluence analysis data"
  | recipe_arbitrage => "Failed to fetch recipe arbitrage data"
  end.

(** [g] is [xs => xs.slice(0, n).map(f)] seen from outside: it keeps the
    first [n] items, in order, and ignores whatever follows them. *)
Definition truncates {A B} (n : nat) (f : A -> nat -> B)
  (g : list A -> list B) : Prop :=
  forall data,
    List.length (g data) = Nat.min n (List.length data)
    /\ (forall i,
          nth_error (g data) i
          = if (i <? n)%nat
            then option_map (fun x => f x i) (nth_error data i)
            else None)
    /\ (forall extra,
          (n <= List.length data)%nat -> g (data ++ extra)%list = g data).

End View.

(** ** Runs and concrete scenarios *)

Module Scenario.

Import Route.
Local Open Scope Z_scope.

(** [n] successive requests to a route, with the responses in order. *)
Fixpoint requests (c : category) (w : world (Raw c)) (n : nat)
  (s : state (Opportunity c))
  : state (Opportunity c) * list (result (httpResponse (Opportunity c))) :=
  match n with
  | O => (s, [])
  | S k =>
      let (s1, r) := GET c w s in
      let (s2, rs) := requests c w k s1 in
      (s2, r :: rs)
  end.

(** [{ ItemName: "Rune axe", LowPrice: 100, PriceFloor: 150, BuyLimit: 8 }] *)
Definition runeAxe : AlchemyFloors.RawAlchemyData.t :=
  {| AlchemyFloors.RawAlchemyData.id := None;
     AlchemyFloors.RawAlchemyData.ItemName := Some "Rune axe"%string;
     AlchemyFloors.RawAlchemyData.LowPrice := Some 100%Q;
     AlchemyFloors.RawAlchemyData.PriceFloor := Some 150%Q;
     AlchemyFloors.RawAlchemyData.BuyLimit := Some 8%Q;
     AlchemyFloors.RawAlchemyData.pctROI := None |}.

(** [{ ItemName: "Abyssal whip", LowPrice: 1000, AvgLow: 1200 }]: no id. *)
Definition whip : DipDetection.RawDipData.t :=
  {| DipDetection.RawDipData.id := None;
     DipDetection.RawDipData.ItemName := Some "Abyssal whip"%string;
     DipDetection.RawDipData.LowPrice := Some 1000%Q;
     DipDetection.RawDipData.AvgLow := Some 1200%Q;
     DipDetection.RawDipData.BuyLimit := None;
     DipDetection.RawDipData.pctROI := None |}.

(** [{ ItemName: "Coal", VolumePattern: "" }] *)
Definition coal : VolumeProfile.RawVolumeData.t :=
  {| VolumeProfile.RawVolumeData.ItemName := Some "Coal"%string;
     VolumeProfile.RawVolumeData.CurrentPrice := None;
     VolumeProfile.RawVolumeData.CurrentHigh := None;
     VolumeProfile.RawVolumeData.BuyLimit := None;
     VolumeProfile.RawVolumeData.LowPriceVolume := None;
     VolumeProfile.RawVolumeData.HighPriceVolume := None;
     VolumeProfile.RawVolumeData.WeeklyLowVolume := None;
     VolumeProfile.RawVolumeData.WeeklyHighVolume := None;
     VolumeProfile.RawVolumeData.VolumeImbalanceRatio := None;
     VolumeProfile.RawVolumeData.VolumePattern := Some ""%string;
     VolumeProfile.RawVolumeData.VolumeSurge := None;
     VolumeProfile.RawVolumeData.SmartMoneySignal := None;
     VolumeProfile.RawVolumeData.AccumulationProfit := None |}.

(** The [Date] of the scenarios: the ISO strings they use, read as
    ECMAScript reads them. *)
Definition epochDate (s : string) : number :=
  if String.eqb s "1970-01-01T00:00:00.000Z" then Num 0
  else if String.eqb s "1970-01-01T00:00:01.000Z" then Num 1000
  else if String.eqb s "1970-01-01T00:00:05.000Z" then Num 5000
  else NaN.

(** A 200 response carrying [{ items, updated }], the items being
    records. *)
Definition document {R} (its : option (list R)) (u : updatedField)
  : outcome R :=
  Resolved {| status := 200;
              body := Json (JsonDoc (option_map (map Some) its) u) |}.

(** A response with status [code] whose body is a JSON object without
    [items], as the contents API sends with an error. *)
Definition refusal {R} (code : Z) : outcome R :=
  Resolved {| status := code; body := Json (JsonDoc None Undefined) |}.

(** The source last wrote its summary at the epoch; its content changes
    between the first request and the second.  Requests come one minute
    after the epoch, effects one millisecond apart. *)
Definition datedSource : world (Raw alchemy_floors) :=
  {| clock := fun n => 60000 + Z.of_nat n;
     network := fun n req =>
       match req with
       | GitHubApi _ =>
           if (n <? 2)%nat
           then document (Some [runeAxe])
                  (Str "1970-01-01T00:00:00.000Z")
           else document (Some [])
                  (Str "1970-01-01T00:00:00.000Z")
       | RawCdn _ _ => Rejected
       end;
     dateGetTime := epochDate |}.

(** The source writes [updated: null].  Three requests, at 1000, 5000
    and 7000 ms; the content changes before the third. *)
Definition undatedSource : world (Raw alchemy_floors) :=
  {| clock := fun n =>
       match n with
       | 0%nat => 1000
       | 1%nat => 1001
       | 2%nat => 5000
       | _ => 7000
       end;
     network := fun n req =>
       match req with
       | GitHubApi _ =>
           if (n <? 2)%nat then document (Some [runeAxe]) Null
           else document (Some []) Null
       | RawCdn _ _ => Rejected
       end;
     dateGetTime := epochDate |}.

(** The source always answers the same undated document. *)
Definition steadySource : world (Raw alchemy_floors) :=
  {| clock := fun n => 60000 + Z.of_nat n;
     network := fun _ _ => document (Some [runeAxe]) Null;
     dateGetTime := epochDate |}.

(** Neither tier can be reached. *)
Definition unreachableSource : world (Raw alchemy_floors) :=
  {| clock := fun n => 60000 + Z.of_nat n;
     network := fun _ _ => Rejected;
     dateGetTime := epochDate |}.

(** Both tiers answer 200 with the JSON object [{}]. *)
Definition emptyObjectSource : world (Raw alchemy_floors) :=
  {| clock := fun n => 60000 + Z.of_nat n;
     network := fun _ _ => document None Undefined;
     dateGetTime := epochDate |}.


(** The volume-profile source always answers the same undated
    document. *)
Definition steadyVolume : world (Raw volume_profile) :=
  {| clock := fun n => 60000 + Z.of_nat n;
     network := fun _ _ => document (Some [coal]) Null;
     dateGetTime := epochDate |}.

(** The contents API answers 403; the flat file is there. *)
Definition rateLimitedSource : world (Raw alchemy_floors) :=
  {| clock := fun n => 60000 + Z.of_nat n;
     network := fun _ req =>
       match req with
       | GitHubApi _ => refusal 403
       | RawCdn _ _ =>
           document (Some [runeAxe]) (Str "1970-01-01T00:00:05.000Z")
       end;
     dateGetTime := epochDate |}.

End Scenario.

(** ** From the routes to the page *)

Module Boundary.

(** What the page reads, with [response.json()], of an opportunity that
    a route wrote with [NextResponse.json]: every key of the page's raw
    interface that the opportunity has, under its own name, and the
    other keys absent.  (The alchemy route writes a string as its [id]
    where the page declares a number; it is left out.) *)

Definition dip (o : DipDetection.DipOpportunity.t)
  : AnalyticsPage.RawDipData.t :=
  {| AnalyticsPage.RawDipData.id := Some (DipDetection.DipOpportunity.id o);
     AnalyticsPage.RawDipData.name :=
       Some (DipDetection.DipOpportunity.name o);
     AnalyticsPage.RawDipData.currentPrice := None;
     AnalyticsPage.RawDipData.currentLow :=
       Some (DipDetection.DipOpportunity.currentLow o);
     AnalyticsPage.RawDipData.avgPrice24h := None;
     AnalyticsPage.RawDipData.avg24hLow :=
       Some (DipDetection.DipOpportunity.avg24hLow o);
     AnalyticsPage.RawDipData.priceDropPercent := None;
     AnalyticsPage.RawDipData.dipMagnitudePercent :=
       Some (DipDetection.DipOpportunity.dipMagnitudePercent o);
     AnalyticsPage.RawDipData.volumeSurge :=
       Some (DipDetection.DipOpportunity.volumeSurge o);
     AnalyticsPage.RawDipData.buyLimit :=
       Some (DipDetection.DipOpportunity.buyLimit o);
     AnalyticsPage.RawDipData.recoveryPotential := None;
     AnalyticsPage.RawDipData.potentialProfit :=
       Some (DipDetection.DipOpportunity.potentialProfit o);
     AnalyticsPage.RawDipData.members :=
       Some (DipDetection.DipOpportunity.members o);
     AnalyticsPage.RawDipData.estimatedProfit := None;
     AnalyticsPage.RawDipData.maxProfit4h :=
       Some (DipDetection.DipOpportunity.maxProfit4h o) |}.

Definition volatility (o : VolatilityBreakout.VolatilityOpportunity.t)
  : AnalyticsPage.RawVolatilityData.t :=
  {| AnalyticsPage.RawVolatilityData.id :=
       Some (VolatilityBreakout.VolatilityOpportunity.id o);
     AnalyticsPage.RawVolatilityData.name :=
       Some (VolatilityBreakout.VolatilityOpportunity.name o);
     AnalyticsPage.RawVolatilityData.currentPrice :=
       Some (VolatilityBreakout.VolatilityOpportunity.currentPrice o);
     AnalyticsPage.RawVolatilityData.buyLimit :=
       Some (VolatilityBreakout.VolatilityOpportunity.buyLimit o);
     AnalyticsPage.RawVolatilityData.compressionRatio :=
       Some (VolatilityBreakout.VolatilityOpportunity.compressionRatio o);
     AnalyticsPage.RawVolatilityData.breakoutDirection :=
       Some (VolatilityBreakout.VolatilityOpportunity.breakoutDirection o);
     AnalyticsPage.RawVolatilityData.volumeConfirmation :=
       Some (VolatilityBreakout.VolatilityOpportunity.volumeConfirmation o);
     AnalyticsPage.RawVolatilityData.potentialBreakoutProfit :=
       Some (VolatilityBreakout.VolatilityOpportunity.potentialBreakoutProfit
               o);
     AnalyticsPage.RawVolatilityData.compressionLevel :=
       Some (VolatilityBreakout.VolatilityOpportunity.compressionLevel o) |}.

Definition volumeProfile (o : VolumeProfile.VolumeProfileOpportunity.t)
  : AnalyticsPage.RawVolumeProfileData.t :=
  {| AnalyticsPage.RawVolumeProfileData.id :=
       Some (VolumeProfile.VolumeProfileOpportunity.id o);
     AnalyticsPage.RawVolumeProfileData.name :=
       Some (VolumeProfile.VolumeProfileOpportunity.name o);
     AnalyticsPage.RawVolumeProfileData.currentPrice :=
       Some (VolumeProfile.VolumeProfileOpportunity.currentPrice o);
     AnalyticsPage.RawVolumeProfileData.buyLimit :=
       Some (VolumeProfile.VolumeProfileOpportunity.buyLimit o);
     AnalyticsPage.RawVolumeProfileData.volumePattern :=
       Some (VolumeProfile.VolumeProfileOpportunity.volumePattern o);
     AnalyticsPage.RawVolumeProfileData.volumeSurge :=
       Some (VolumeProfile.VolumeProfileOpportunity.volumeSurge o);
     AnalyticsPage.RawVolumeProfileData.smartMoneySignal :=
       Some (VolumeProfile.VolumeProfileOpportunity.smartMoneySignal o);
     AnalyticsPage.RawVolumeProfileData.accumulationProfit :=
       Some (VolumeProfile.VolumeProfileOpportunity.accumulationProfit o) |}.

Definition confluence (o : Confluence.ConfluenceOpportunity.t)
  : AnalyticsPage.RawConfluenceData.t :=
  {| AnalyticsPage.RawConfluenceData.id :=
       Some (Confluence.ConfluenceOpportunity.id o);
     AnalyticsPage.RawConfluenceData.name :=
       Some (Confluence.ConfluenceOpportunity.name o);
     AnalyticsPage.RawConfluenceData.currentPrice :=
       Some (Confluence.ConfluenceOpportunity.currentPrice o);
     AnalyticsPage.RawConfluenceData.buyLimit :=
       Some (Confluence.ConfluenceOpportunity.buyLimit o);
     AnalyticsPage.RawConfluenceData.bullishConfluence :=
       Some (Confluence.ConfluenceOpportunity.bullishConfluence o);
     AnalyticsPage.RawConfluenceData.bearishConfluence :=
       Some (Confluence.ConfluenceOpportunity.bearishConfluence o);
     AnalyticsPage.RawConfluenceData.signalStrength :=
       Some (Confluence.ConfluenceOpportunity.signalStrength o);
     AnalyticsPage.RawConfluenceData.volumeConfirmation :=
       Some (Confluence.ConfluenceOpportunity.volumeConfirmation o);
     AnalyticsPage.RawConfluenceData.potentialProfit :=
       Some (Confluence.ConfluenceOpportunity.potentialProfit o) |}.

Definition recipeArbitrage
  (o : RecipeArbitrage.RecipeArbitrageOpportunity.t)
  : AnalyticsPage.RawRecipeArbitrageData.t :=
  {| AnalyticsPage.RawRecipeArbitrageData.id :=
       Some (RecipeArbitrage.RecipeArbitrageOpportunity.id o);
     AnalyticsPage.RawRecipeArbitrageData.productName :=
       Some (RecipeArbitrage.RecipeArbitrageOpportunity.productName o);
     AnalyticsPage.RawRecipeArbitrageData.productPrice :=
       Some (RecipeArbitrage.RecipeArbitrageOpportunity.productPrice o);
     AnalyticsPage.RawRecipeArbitrageData.productBuyLimit :=
       Some (RecipeArbitrage.RecipeArbitrageOpportunity.productBuyLimit o);
     AnalyticsPage.RawRecipeArbitrageData.ingredient1Name :=
       Some (RecipeArbitrage.RecipeArbitrageOpportunity.ingredient1Name o);
     AnalyticsPage.RawRecipeArbitrageData.totalIngredientCost :=
       Some (RecipeArbitrage.RecipeArbitrageOpportunity.totalIngredientCost
               o);
     AnalyticsPage.RawRecipeArbitrageData.profitPerCraft :=
       Some (RecipeArbitrage.RecipeArbitrageOpportunity.profitPerCraft o);
     AnalyticsPage.RawRecipeArbitrageData.roi :=
       Some (RecipeArbitrage.RecipeArbitrageOpportunity.roi o);
     AnalyticsPage.RawRecipeArbitrageData.recipeType :=
       Some (RecipeArbitrage.RecipeArbitrageOpportunity.recipeType o);
     AnalyticsPage.RawRecipeArbitrageData.liquidityLevel :=
       Some (RecipeArbitrage.RecipeArbitrageOpportunity.liquidityLevel o) |}.

(** The fields of an opportunity that the page keeps, as they are. *)

Definition keptVolatility (o : VolatilityBreakout.VolatilityOpportunity.t)
  : AnalyticsPage.VolatilityItem.t :=
  {| AnalyticsPage.VolatilityItem.id :=
       VolatilityBreakout.VolatilityOpportunity.id o;
     AnalyticsPage.VolatilityItem.name :=
       VolatilityBreakout.VolatilityOpportunity.name o;
     AnalyticsPage.VolatilityItem.currentPrice :=
       VolatilityBreakout.VolatilityOpportunity.currentPrice o;
     AnalyticsPage.VolatilityItem.buyLimit :=
       VolatilityBreakout.VolatilityOpportunity.buyLimit o;
     AnalyticsPage.VolatilityItem.compressionRatio :=
       VolatilityBreakout.VolatilityOpportunity.compressionRatio o;
     AnalyticsPage.VolatilityItem.breakoutDirection :=
       VolatilityBreakout.VolatilityOpportunity.breakoutDirection o;
     AnalyticsPage.VolatilityItem.volumeConfirmation :=
       VolatilityBreakout.VolatilityOpportunity.volumeConfirmation o;
     AnalyticsPage.VolatilityItem.potentialBreakoutProfit :=
       VolatilityBreakout.VolatilityOpportunity.potentialBreakoutProfit o;
     AnalyticsPage.VolatilityItem.compressionLevel :=
       VolatilityBreakout.VolatilityOpportunity.compressionLevel o |}.

Definition keptVolumeProfile (o : VolumeProfile.VolumeProfileOpportunity.t)
  : AnalyticsPage.VolumeProfileItem.t :=
  {| AnalyticsPage.VolumeProfileItem.id :=
       VolumeProfile.VolumeProfileOpportunity.id o;
     AnalyticsPage.VolumeProfileItem.name :=
       VolumeProfile.VolumeProfileOpportunity.name o;
     AnalyticsPage.VolumeProfileItem.currentPrice :=
       VolumeProfile.VolumeProfileOpportunity.currentPrice o;
     AnalyticsPage.VolumeProfileItem.buyLimit :=
       VolumeProfile.VolumeProfileOpportunity.buyLimit o;
     AnalyticsPage.VolumeProfileItem.volumePattern :=
       VolumeProfile.VolumeProfileOpportunity.volumePattern o;
     AnalyticsPage.VolumeProfileItem.volumeSurge :=
       VolumeProfile.VolumeProfileOpportunity.volumeSurge o;
     AnalyticsPage.VolumeProfileItem.smartMoneySignal :=
       VolumeProfile.VolumeProfileOpportunity.smartMoneySignal o;
     AnalyticsPage.VolumeProfileItem.accumulationProfit :=
       VolumeProfile.VolumeProfileOpportunity.accumulationProfit o |}.

Definition keptConfluence (o : Confluence.ConfluenceOpportunity.t)
  : AnalyticsPage.ConfluenceItem.t :=
  {| AnalyticsPage.ConfluenceItem.id :=
       Confluence.ConfluenceOpportunity.id o;
     AnalyticsPage.ConfluenceItem.name :=
       Confluence.ConfluenceOpportunity.name o;
     AnalyticsPage.ConfluenceItem.currentPrice :=
       Confluence.ConfluenceOpportunity.currentPrice o;
     AnalyticsPage.ConfluenceItem.buyLimit :=
       Confluence.ConfluenceOpportunity.buyLimit o;
     AnalyticsPage.ConfluenceItem.bullishConfluence :=
       Confluence.ConfluenceOpportunity.bullishConfluence o;
     AnalyticsPage.ConfluenceItem.bearishConfluence :=
       Confluence.ConfluenceOpportunity.bearishConfluence o;
     AnalyticsPage.ConfluenceItem.signalStrength :=
       Confluence.ConfluenceOpportunity.signalStrength o;
     AnalyticsPage.ConfluenceItem.volumeConfirmation :=
       Confluence.ConfluenceOpportunity.volumeConfirmation o;
     AnalyticsPage.ConfluenceItem.potentialProfit :=
       Confluence.ConfluenceOpportunity.potentialProfit o |}.

Definition keptRecipeArbitrage
  (o : RecipeArbitrage.RecipeArbitrageOpportunity.t)
  : AnalyticsPage.RecipeArbitrageItem.t :=
  {| AnalyticsPage.RecipeArbitrageItem.id :=
       RecipeArbitrage.RecipeArbitrageOpportunity.id o;
     AnalyticsPage.RecipeArbitrageItem.productName :=
       RecipeArbitrage.RecipeArbitrageOpportunity.productName o;
     AnalyticsPage.RecipeArbitrageItem.productPrice :=
       RecipeArbitrage.RecipeArbitrageOpportunity.productPrice o;
     AnalyticsPage.RecipeArbitrageItem.productBuyLimit :=
       RecipeArbitrage.RecipeArbitrageOpportunity.productBuyLimit o;
     AnalyticsPage.RecipeArbitrageItem.ingredient1Name :=
       RecipeArbitrage.RecipeArbitrageOpportunity.ingredient1Name o;
     AnalyticsPage.RecipeArbitrageItem.totalIngredientCost :=
       RecipeArbitrage.RecipeArbitrageOpportunity.totalIngredientCost o;
     AnalyticsPage.RecipeArbitrageItem.profitPerCraft :=
       RecipeArbitrage.RecipeArbitrageOpportunity.profitPerCraft o;
     AnalyticsPage.RecipeArbitrageItem.roi :=
       RecipeArbitrage.RecipeArbitrageOpportunity.roi o;
     AnalyticsPage.RecipeArbitrageItem.recipeType :=
       RecipeArbitrage.RecipeArbitrageOpportunity.recipeType o;
     AnalyticsPage.RecipeArbitrageItem.liquidityLevel :=
       RecipeArbitrage.RecipeArbitrageOpportunity.liquidityLevel o |}.

End Boundary.

(** ** The analytics page: labels and row keys *)

Module Labels.

(** [text.replace("_", " ")]: a string pattern replaces its first
    occurrence only. *)
Fixpoint replaceUnderscore (text : string) : string :=
  match text with
  | EmptyString => EmptyString
  | String a rest =>
      if Ascii.eqb a "_"%char then String " "%char rest
      else String a (replaceUnderscore rest)
  end.

(** The properties an object literal inherits from [Object.prototype].
    Reading one of them gives a function or an object, not a string. *)
Definition inherited : list string :=
  [ "constructor"; "toString"; "toLocaleString"; "valueOf";
    "hasOwnProperty"; "isPrototypeOf"; "propertyIsEnumerable";
    "__proto__"; "__defineGetter__"; "__defineSetter__";
    "__lookupGetter__"; "__lookupSetter__" ].

(** [table[key]], [table] being an object literal of strings. *)
Inductive property : Type :=
| Own (label : string)
| Inherited
| Missing.

Fixpoint own (table : list (string * string)) (key : string)
  : option string :=
  match table with
  | [] => None
  | (k, label) :: rest => if String.eqb k key then Some label else own rest key
  end.

Definition get (table : list (string * string)) (key : string) : property :=
  match own table key with
  | Some label => Own label
  | None => if existsb (String.eqb key) inherited then Inherited else Missing
  end.

(** [table[key] || key.replace("_", " ")]; [None] stands for a result
    that is no string. *)
Definition labelOf (table : list (string * string)) (key : string)
  : option string :=
  match get table key with
  | Own label => if truthy label then Some label
                 else Some (replaceUnderscore key)
  | Inherited => None
  | Missing => Some (replaceUnderscore key)
  end.

Definition patterns : list (string * string) :=
  [ ("STRONG_ACCUMULATION", "Strong Buy Interest");
    ("MODERATE_ACCUMULATION", "Moderate Buy Interest");
    ("STRONG_DISTRIBUTION", "Strong Sell Pressure");
    ("MODERATE_DISTRIBUTION", "Moderate Sell Pressure");
    ("BALANCED", "Balanced Trading") ].

Definition formatVolumePattern (pattern : string) : option string :=
  labelOf patterns pattern.

Definition surges : list (string * string) :=
  [ ("EXTREME_VOLUME_SURGE", "Extreme Activity");
    ("HIGH_VOLUME_SURGE", "High Activity");
    ("MODERATE_VOLUME_SURGE", "Increased Activity");
    ("NORMAL_VOLUME", "Normal Activity") ].

Definition formatVolumeSurge (surge : string) : option string :=
  labelOf surges surge.

Definition signals : list (string * string) :=
  [ ("SMART_MONEY_ACCUMULATION", "Big Players Buying");
    ("SMART_MONEY_DISTRIBUTION", "Big Players Selling");
    ("NO_SMART_MONEY_SIGNAL", "Normal Trading") ].

Definition formatSmartMoneySignal (signal : string) : option string :=
  labelOf signals signal.

(** Whether a string holds the character [c]. *)
Fixpoint holds (c : Ascii.ascii) (text : string) : bool :=
  match text with
  | EmptyString => false
  | String a rest => Ascii.eqb a c || holds c rest
  end.

End Labels.

Module Keys.

Import AnalyticsPage.

Section Keys.

(** [`${id}`] for a number: the text is the engine's. *)
Variable Number_toString : Q -> string.

(** [`prefix-${item.id}-${index}`], the [key] of a row. *)
Definition rowKey (prefix : string) (id : Q) (index : nat) : string :=
  prefix ++ "-" ++ Number_toString id ++ "-" ++ string_of_index index.

Definition DipsTableKeys (data : list DipItem.t) : list string :=
  map (fun row => rowKey "dip" (DipItem.id (fst row)) (snd row))
    (DipsTable data).

Definition AlchemyTableKeys (data : list AlchemyItem.t) : list string :=
  map (fun row => rowKey "alchemy" (AlchemyItem.id (fst row)) (snd row))
    (AlchemyTable data).

Definition VolatilityTableKeys (data : list VolatilityItem.t)
  : list string :=
  map (fun row => rowKey "volatility" (VolatilityItem.id (fst row))
                    (snd row))
    (VolatilityTable data).

Definition VolumeProfileTableKeys (data : list VolumeProfileItem.t)
  : list string :=
  map (fun row => rowKey "volume" (VolumeProfileItem.id (fst row)) (snd row))
    (VolumeProfileTable data).

Definition ConfluenceTableKeys (data : list ConfluenceItem.t)
  : list string :=
  map (fun row => rowKey "confluence" (ConfluenceItem.id (fst row))
                    (snd row))
    (ConfluenceTable data).

Definition RecipeArbitrageTableKeys (data : list RecipeArbitrageItem.t)
  : list string :=
  map (fun row => rowKey "recipe" (RecipeArbitrageItem.id (fst row))
                    (snd row))
    (RecipeArbitrageTable data).

End Keys.

End Keys.

(** ** The audio cue *)

Module Audio.

(** A value [JSON.parse] may give, as far as its truthiness goes. *)
Inductive json : Type :=
| JBool (b : bool)
| JNull
| JNumber (q : Q)
| JString (text : string)
| JCompound.

Definition json_truthy (v : json) : bool :=
  match v with
  | JBool b => b
  | JNull => false
  | JNumber q => truthy q
  | JString text => truthy text
  | JCompound => true
  end.

(** Where the module runs: with a [window] or not (on the server), with
    an [AudioContext] that can be constructed or not, with
    [window.localStorage] or not. *)
Record browser : Type := mkBrowser {
  hasWindow : bool;
  audioContextWorks : bool;
  hasLocalStorage : bool;
}.

(** [audioContext] tells whether the field holds a context or [null]. *)
Record SimpleAudioSystem : Type := mkSystem {
  audioContext : bool;
  enabled : json;
  volume : Q;
}.

(** What [playDataRefreshSound] schedules, times in seconds. *)
Record tone : Type := mkTone {
  frequency : Q;
  start : Q;
  peakGain : Q;
  peakTime : Q;
  fadeGain : Q;
  stop : Q;
}.

Section Audio.

(** [JSON.parse], [None] when it throws, and [JSON.stringify]. *)
Variable JSON_parse : string -> option json.
Variable JSON_stringify : json -> string.

Variable b : browser.

(** [initializeAudioContext]: a failing constructor is caught. *)
Definition initializeAudioContext (sys : SimpleAudioSystem)
  : SimpleAudioSystem :=
  if hasWindow b then
    if audioContextWorks b
    then {| audioContext := true; enabled := enabled sys;
            volume := volume sys |}
    else sys
  else sys.

(** [loadSettings]; [stored] is the item ['lotus-audio-enabled'] of the
    storage.  [None] is the exception [JSON.parse] throws. *)
Definition loadSettings (stored : option string) (sys : SimpleAudioSystem)
  : option SimpleAudioSystem :=
  if hasWindow b && hasLocalStorage b then
    match stored with
    | Some saved =>
        match JSON_parse saved with
        | Some v =>
            Some {| audioContext := audioContext sys; enabled := v;
                    volume := volume sys |}
        | None => None
        end
    | None => Some sys
    end
  else Some sys.

(** [new SimpleAudioSystem()] *)
Definition construct (stored : option string) : option SimpleAudioSystem :=
  loadSettings stored
    (initializeAudioContext
       {| audioContext := false; enabled := JBool true; volume := 0.1 |}).

(** [saveSettings]: the item after the call, the storage taking it. *)
Definition saveSettings (sys : SimpleAudioSystem) (stored : option string)
  : option string :=
  if hasWindow b && hasLocalStorage b
  then Some (JSON_stringify (enabled sys))
  else stored.

(** [setEnabled(value)] *)
Definition setEnabled (value : bool) (sys : SimpleAudioSystem)
  (stored : option string) : SimpleAudioSystem * option string :=
  let sys' := {| audioContext := audioContext sys; enabled := JBool value;
                 volume := volume sys |} in
  (sys', saveSettings sys' stored).

(** [isEnabled()] *)
Definition isEnabled (sys : SimpleAudioSystem) : json := enabled sys.

(** [playDataRefreshSound()], [currentTime] being the clock of the
    context and [nodesWork] telling whether the calls on the audio nodes
    go through (an exception is caught). *)
Definition playDataRefreshSound (sys : SimpleAudioSystem) (currentTime : Q)
  (nodesWork : bool) : option tone :=
  if negb (json_truthy (enabled sys)) || negb (audioContext sys) then None
  else if nodesWork then
    Some {| frequency := 523;
            start := currentTime;
            peakGain := volume sys;
            peakTime := currentTime + 0.02;
            fadeGain := 0.001;
            stop := currentTime + 0.2 |}
  else None.

(** [testSound()] *)
Definition testSound (sys : SimpleAudioSystem) (currentTime : Q)
  (nodesWork : bool) : option tone :=
  playDataRefreshSound sys currentTime nodesWork.

End Audio.

(** A [JSON.parse] and a [JSON.stringify] that know the two booleans. *)
Definition parseBoolean (text : string) : option json :=
  if String.eqb text "true" then Some (JBool true)
  else if String.eqb text "false" then Some (JBool false)
  else None.

Definition stringifyBoolean (v : json) : string :=
  match v with
  | JBool true => "true"
  | JBool false => "false"
  | _ => "null"
  end.

End Audio.

(** ** Further scenarios *)

Module Cases.

Import Route.
Local Open Scope Z_scope.

(** Neither tier can be reached during the first request; afterwards the
    source is back with the Rune axe. *)
Definition recoveringSource : world (Raw alchemy_floors) :=
  {| clock := fun n => 60000 + Z.of_nat n;
     network := fun n _ =>
       if (n <? 4)%nat then Rejected
       else Scenario.document (Some [Scenario.runeAxe]) Null;
     dateGetTime := Scenario.epochDate |}.

(** The source writes an [updated] that is no date. *)
Definition undatableSource : world (Raw alchemy_floors) :=
  {| clock := fun n => 60000 + Z.of_nat n;
     network := fun _ _ =>
       Scenario.document (Some [Scenario.runeAxe]) (Str "yesterday");
     dateGetTime := Scenario.epochDate |}.

(** The contents API answers 500 and the flat file cannot be reached at
    first; its second request succeeds. *)
Definition flakySource : world (Raw alchemy_floors) :=
  {| clock := fun n => 60000 + Z.of_nat n;
     network := fun n req =>
       match req with
       | GitHubApi _ => Scenario.refusal 500
       | RawCdn _ _ =>
           if (n <? 4)%nat then Rejected
           else Scenario.document (Some [Scenario.runeAxe]) Null
       end;
     dateGetTime := Scenario.epochDate |}.

(** The source writes an [updated] that is an object, [{}]: its text is
    no date. *)
Definition objectDatedSource : world (Raw alchemy_floors) :=
  {| clock := fun n => 60000 + Z.of_nat n;
     network := fun _ _ =>
       Scenario.document (Some [Scenario.runeAxe])
         (Compound "[object Object]");
     dateGetTime := Scenario.epochDate |}.

(** The source writes no [updated] at all. *)
Definition keylessSource : world (Raw alchemy_floors) :=
  {| clock := fun n => 60000 + Z.of_nat n;
     network := fun _ _ =>
       Scenario.document (Some [Scenario.runeAxe]) Undefined;
     dateGetTime := Scenario.epochDate |}.

(** The source writes [items: [null]]. *)
Definition nullItemSource : world (Raw alchemy_floors) :=
  {| clock := fun n => 60000 + Z.of_nat n;
     network := fun _ _ =>
       Resolved {| status := 200;
                   body := Json (JsonDoc (Some [None]) Null) |};
     dateGetTime := Scenario.epochDate |}.

End Cases.

(** Case analysis on what the environment answers. *)
Ltac answers :=
  repeat match goal with
         | |- context [network ?w ?n ?q] =>
             destruct (network w n q) eqn:?; simpl
         | |- context [ok ?r] => destruct (ok r) eqn:?; simpl
         | |- context [body ?r] =>
             destruct (body r) as [|[|? ?]] eqn:?; simpl
         end.

(** * Properties *)

(** ** Arrays *)

Section Arrays.
Context {A B : Type}.
Variable f : A -> nat -> B.

Lemma map_from_length (l : list A) (k : nat) :
  List.length (map_from f k l) = List.length l.
Proof.
  revert k; induction l as [|x xs IH]; intro k; simpl.
  - reflexivity.
  - now rewrite IH.
Qed.

Lemma map_from_nth (l : list A) (k i : nat) :
  nth_error (map_from f k l) i
  = option_map (fun x => f x (k + i)%nat) (nth_error l i).
Proof.
  revert k i; induction l as [|x xs IH]; intros k i.
  - destruct i; reflexivity.
  - destruct i as [|i]; simpl.
    + now rewrite Nat.add_0_r.
    + rewrite IH. now rewrite Nat.add_succ_r.
Qed.

Lemma map_index_length (l : list A) :
  List.length (map_index f l) = List.length l.
Proof. apply map_from_length. Qed.

Lemma map_index_nth (l : list A) (i : nat) :
  nth_error (map_index f l) i
  = option_map (fun x => f x i) (nth_error l i).
Proof. unfold map_index. now rewrite map_from_nth. Qed.

(** [xs.slice(0, n).map(f)]: length, content, and what it ignores. *)
Lemma slice_map_length (n : nat) (l : list A) :
  List.length (map_index f (slice0 n l)) = Nat.min n (List.length l).
Proof.
  rewrite map_index_length. unfold slice0. apply length_firstn.
Qed.

Lemma slice_map_nth (n : nat) (l : list A) (i : nat) :
  nth_error (map_index f (slice0 n l)) i
  = if (i <? n)%nat then option_map (fun x => f x i) (nth_error l i)
    else None.
Proof.
  rewrite map_index_nth. unfold slice0.
  rewrite nth_error_firstn.
  now destruct (i <? n)%nat.
Qed.

Lemma slice_map_drops (n : nat) (l extra : list A) :
  (n <= List.length l)%nat ->
  map_index f (slice0 n (l ++ extra)) = map_index f (slice0 n l).
Proof.
  intro H. unfold slice0. f_equal.
  rewrite firstn_app.
  replace (n - List.length l)%nat with 0%nat by lia.
  simpl. apply app_nil_r.
Qed.
End Arrays.

Lemma map_from_Forall2 {A B} (f : A -> nat -> B) (P : A -> B -> Prop) :
  (forall x i, P x (f x i)) ->
  forall l k, Forall2 P l (map_from f k l).
Proof.
  intros H l; induction l as [|x xs IH]; intro k; simpl; constructor; auto.
Qed.

Lemma slice_map_truncates {A B} (n : nat) (f : A -> nat -> B) :
  View.truncates n f (fun data => map_index f (slice0 n data)).
Proof.
  intro data. split; [apply slice_map_length|].
  split; [intro i; apply slice_map_nth|].
  intros extra H. now apply slice_map_drops.
Qed.

(** ** Truthiness and defaults *)

Lemma or_number (x : option Q) : (x || 0)%js == nullish x 0.
Proof.
  destruct x as [q|]; simpl; [|reflexivity].
  unfold truthy, truthy_number.
  destruct (Qnum q =? 0)%Z eqn:E; simpl; [|reflexivity].
  apply Z.eqb_eq in E. unfold Qeq. simpl. rewrite E. reflexivity.
Qed.

Lemma or_string (x : option string) (d : string) :
  (x || d)%js = View.stringOrDefault x d.
Proof. destruct x as [[|a s]|]; reflexivity. Qed.

(** ** The Normalizers *)

Section Normalizers.
Import Route View.

Lemma processData_map (c : category) (data : list (Raw c)) :
  processData c data = map_index (processOne c) data.
Proof. destruct c; reflexivity. Qed.

Lemma identifier_of_processed (c : category) (item : Raw c) (i : nat) :
  identifierOf c (processOne c item i) = identifierAt c item i.
Proof. destruct c; reflexivity. Qed.

(** C3, as amended.  Every Normalizer returns one opportunity per raw
    record, in the order of the input; the opportunity at index [i] is
    the callback applied to the record at index [i], and its identifier
    is the raw id or else 0 on the dip route, the index after the prefix
    "alchemy-" on the alchemy route, and the index plus one on the four
    other routes. *)
Theorem normalizer_order_and_identifier (c : category)
  (data : list (Raw c)) :
  List.length (processData c data) = List.length data
  /\ forall i item,
      nth_error data i = Some item ->
      exists o,
        nth_error (processData c data) i = Some o
        /\ o = processOne c item i
        /\ identifierOf c o = identifierAt c item i.
Proof.
  rewrite processData_map. split.
  - apply map_index_length.
  - intros i item H. exists (processOne c item i).
    rewrite map_index_nth, H. simpl.
    repeat split. apply identifier_of_processed.
Qed.

Lemma normalizer_order_and_identifier_witness :
  List.length
    (processData dip_detection [Scenario.whip; Scenario.whip]) = 2%nat
  /\ exists o,
      nth_error (processData dip_detection [Scenario.whip; Scenario.whip]) 1
      = Some o
      /\ identifierOf dip_detection o = IdNumber 0.
Proof.
  destruct (normalizer_order_and_identifier dip_detection
              [Scenario.whip; Scenario.whip]) as [L H].
  split; [exact L|].
  destruct (H 1%nat Scenario.whip eq_refl) as [o [H1 [_ H3]]].
  exists o. split; [exact H1 | exact H3].
Defined.

(** C3, counterexample.  Two dip records without an id: both
    opportunities get the identifier 0, so the second one, at index 1,
    is identified neither by 1 nor by 2. *)
Lemma dip_identifier_not_position :
  DipDetection.RawDipData.id Scenario.whip = None
  /\ map DipDetection.DipOpportunity.id
       (DipDetection.processDipData [Scenario.whip; Scenario.whip])
     = [0; 0]
  /\ ~ 0 == of_index 1
  /\ ~ 0 == of_index 2.
Proof. repeat split; discriminate. Qed.

(** C5, as amended.  In the output of every Normalizer, a numeric field
    that is read from a raw field equals it when it is present and 0 when
    it is absent; a string field that is read from a raw field equals it
    when it is present and not empty, and the default of the route when
    it is absent or the empty string; the four volume fields of the dip
    route are the constants 1000, 100, 10 and 1. *)
Theorem normalizer_defaults (c : category) (data : list (Raw c)) :
  Forall2
    (fun item o =>
       Forall (fun p => snd p o == nullish (fst p item) 0)
         (numericFields c)
       /\ Forall
            (fun p =>
               snd (fst p) o = stringOrDefault (fst (fst p) item) (snd p))
            (stringFields c))
    data (processData c data)
  /\ forall dips : list DipDetection.RawDipData.t,
      Forall (fun o => Forall (fun p => fst p o = snd p) dipVolumeFields)
        (DipDetection.processDipData dips).
Proof.
  split.
  - rewrite processData_map. apply map_from_Forall2.
    intros item i.
    destruct c; split; repeat constructor;
      solve [apply or_number | apply or_string].
  - intro dips. unfold DipDetection.processDipData, map_index.
    generalize 0%nat. induction dips as [|d ds IH]; intro k; simpl.
    + constructor.
    + constructor; [repeat constructor | apply IH].
Qed.

(** C5, counterexample.  The volume-profile record carries the empty
    string as its [VolumePattern]; the opportunity carries "BALANCED".
    The dip record gives [volume24hTotal] no value; the opportunity
    carries 1000. *)
Lemma empty_string_is_defaulted :
  VolumeProfile.RawVolumeData.VolumePattern Scenario.coal = Some ""
  /\ map VolumeProfile.VolumeProfileOpportunity.volumePattern
       (VolumeProfile.processVolumeProfileData [Scenario.coal])
     = ["BALANCED"]
  /\ "BALANCED" <> ""
  /\ map DipDetection.DipOpportunity.volume24hTotal
       (DipDetection.processDipData [Scenario.whip])
     = [1000]
  /\ ~ 1000 == 0.
Proof. repeat split; discriminate. Qed.

(** C6.  The alchemy Normalizer maps the Rune axe record to one
    opportunity named "Rune axe" with currentLow 100, priceFloor 150,
    potentialProfit 50 (priceFloor - currentLow), tax 1 (the floor of
    priceFloor * 0.01), buyLimit 8 and natureRuneCost 170. *)
Theorem rune_axe_normalized :
  exists o,
    AlchemyFloors.processAlchemyData [Scenario.runeAxe] = [o]
    /\ AlchemyFloors.AlchemyOpportunity.name o = "Rune axe"
    /\ AlchemyFloors.AlchemyOpportunity.currentLow o = 100
    /\ AlchemyFloors.AlchemyOpportunity.priceFloor o = 150
    /\ AlchemyFloors.AlchemyOpportunity.potentialProfit o = 50
    /\ AlchemyFloors.AlchemyOpportunity.potentialProfit o
       = AlchemyFloors.AlchemyOpportunity.priceFloor o
         - AlchemyFloors.AlchemyOpportunity.currentLow o
    /\ AlchemyFloors.AlchemyOpportunity.tax o = 1
    /\ AlchemyFloors.AlchemyOpportunity.tax o
       = Math_floor (AlchemyFloors.AlchemyOpportunity.priceFloor o * 0.01)
    /\ AlchemyFloors.AlchemyOpportunity.buyLimit o = 8
    /\ AlchemyFloors.AlchemyOpportunity.natureRuneCost o = 170.
Proof.
  eexists. split; [reflexivity|].
  repeat split.
Qed.

End Normalizers.

(** ** The analytics page *)

Section Page.
Import AnalyticsPage View.

(** C10.  Each of the six transform functions keeps the first 50 records
    of the list it is given, in order, and ignores every record after
    them; each of the six tables renders the first 20 items of its list,
    in order, and ignores the others. *)
Theorem page_truncates (formatGP : Q -> string) :
  (truncates 50 (fun item _ => transformDip formatGP item)
     (transformDipsDataFromAPI formatGP)
   /\ truncates 50 (fun item _ => transformAlchemy item)
        transformAlchemyDataFromAPI
   /\ truncates 50 transformVolatility transformVolatilityDataFromAPI
   /\ truncates 50 transformVolumeProfile transformVolumeProfileDataFromAPI
   /\ truncates 50 transformConfluence transformConfluenceDataFromAPI
   /\ truncates 50 transformRecipeArbitrage
        transformRecipeArbitrageDataFromAPI)
  /\ (truncates 20 (fun item index => (item, index)) DipsTable
      /\ truncates 20 (fun item index => (item, index)) AlchemyTable
      /\ truncates 20 (fun item index => (item, index)) VolatilityTable
      /\ truncates 20 (fun item index => (item, index)) VolumeProfileTable
      /\ truncates 20 (fun item index => (item, index)) ConfluenceTable
      /\ truncates 20 (fun item index => (item, index))
           RecipeArbitrageTable).
Proof. repeat split; apply slice_map_truncates. Qed.

(** 51 records: the 51st does not reach the page. *)
Lemma page_truncates_witness :
  let blank := RawAlchemyData.mk None None None None None None None None
                 None in
  let first := repeat blank 50 in
  transformAlchemyDataFromAPI (first ++ [blank])
  = transformAlchemyDataFromAPI first
  /\ List.length (transformAlchemyDataFromAPI (first ++ [blank])) = 50%nat.
Proof.
  intros blank first.
  destruct (page_truncates (fun _ => "")) as [[_ [H _]] _].
  split.
  - destruct (H first) as [_ [_ D]]. apply D.
    unfold first. rewrite repeat_length. apply le_n.
  - destruct (H (first ++ [blank])%list) as [L _]. rewrite L.
    unfold first. rewrite length_app, repeat_length. reflexivity.
Defined.

Section Latest.
Variable dateGetTime : string -> number.

Lemma Math_max_spec (x : number) (xs : list number) :
  (forall y, In y (x :: xs) -> exists t, y = Num t) ->
  exists m,
    Math_max x xs = Num m
    /\ In (Num m) (x :: xs)
    /\ forall t, In (Num t) (x :: xs) -> (t <= m)%Z.
Proof.
  revert x; induction xs as [|y ys IH]; intros x H.
  - destruct (H x (or_introl eq_refl)) as [t ->].
    exists t. simpl. repeat split; auto.
    intros t' [E|[]]. injection E as ->. apply Z.le_refl.
  - destruct (H x (or_introl eq_refl)) as [a ->].
    destruct (IH y) as [b [E [I U]]].
    { intros z Hz. apply H. now right. }
    simpl. rewrite E. exists (Z.max a b). split; [reflexivity|]. split.
    + destruct (Z.max_spec a b) as [[_ ->]|[_ ->]];
        [right; exact I | left; reflexivity].
    + intros t [Et|Ht].
      * injection Et as ->. apply Z.le_max_l.
      * apply Z.le_trans with b; [now apply U | apply Z.le_max_r].
Qed.

Lemma Math_max_NaN (x : number) (xs : list number) :
  In NaN (x :: xs) -> Math_max x xs = NaN.
Proof.
  revert x; induction xs as [|y ys IH]; intros x H; simpl.
  - destruct H as [->|[]]. reflexivity.
  - destruct H as [->|H]; [reflexivity|].
    rewrite (IH y H). now destruct x.
Qed.

Lemma latestOf_null (l : list updatedField) :
  latestOf dateGetTime l = None
  <-> forall u, In u l -> updated_truthy u = false.
Proof.
  unfold latestOf. split.
  - intros H u Hu.
    destruct (updated_truthy u) eqn:E; [|reflexivity].
    assert (I : In u (filter updated_truthy l))
      by (apply filter_In; split; assumption).
    destruct (filter updated_truthy l); [destruct I|discriminate].
  - intro H.
    replace (filter updated_truthy l) with (@nil updatedField);
      [reflexivity|].
    symmetry. induction l as [|u us IH]; [reflexivity|].
    simpl. rewrite (H u (or_introl eq_refl)).
    apply IH. intros v Hv. apply H. now right.
Qed.

Lemma latestOf_max (l : list updatedField) :
  (exists u, In u l /\ updated_truthy u = true) ->
  (forall u, In u l -> updated_truthy u = true ->
             exists t, getTime dateGetTime u = Num t) ->
  exists m,
    latestOf dateGetTime l = Some (Num m)
    /\ (exists u,
          In u l /\ updated_truthy u = true
          /\ getTime dateGetTime u = Num m)
    /\ forall u t,
        In u l -> updated_truthy u = true ->
        getTime dateGetTime u = Num t -> (t <= m)%Z.
Proof.
  intros [u0 [I0 T0]] V. unfold latestOf.
  assert (F0 : In u0 (filter updated_truthy l))
    by (apply filter_In; split; assumption).
  assert (M : forall y,
             In y (map (getTime dateGetTime) (filter updated_truthy l))
             <-> exists u, In u l /\ updated_truthy u = true
                           /\ getTime dateGetTime u = y).
  { intro y. rewrite in_map_iff. split.
    - intros [u [E I]]. apply filter_In in I. exists u. tauto.
    - intros [u [I [T E]]]. exists u. split; [exact E|].
      apply filter_In. tauto. }
  destruct (map (getTime dateGetTime) (filter updated_truthy l))
    as [|x xs] eqn:E.
  - exfalso. apply (in_map (getTime dateGetTime)) in F0.
    rewrite E in F0. destruct F0.
  - destruct (@Math_max_spec x xs) as [m [Em [Im Um]]].
    { intros y Hy. apply M in Hy. destruct Hy as [u [I [T <-]]].
      exact (V u I T). }
    exists m. split; [now rewrite Em|]. split.
    + now apply M.
    + intros u t I T G. apply Um. apply M. exists u. tauto.
Qed.

Lemma latestOf_invalid (l : list updatedField) :
  (exists u,
      In u l /\ updated_truthy u = true /\ getTime dateGetTime u = NaN) ->
  latestOf dateGetTime l = Some NaN.
Proof.
  intros [u [I [T E]]]. unfold latestOf.
  assert (F : In NaN (map (getTime dateGetTime) (filter updated_truthy l))).
  { rewrite <- E. apply in_map. apply filter_In. now split. }
  destruct (map (getTime dateGetTime) (filter updated_truthy l)) as [|x xs].
  - destruct F.
  - now rewrite (Math_max_NaN F).
Qed.

(** C8.  The page takes the six [dataUpdated], drops the absent ones
    (undefined, null, or the empty string), and takes the maximum of the
    times of the others as the "data as of" time; when no category reports
    a timestamp the result is null.  (A timestamp that is no date makes
    the maximum, as [Math.max] has it, an invalid date.) *)
Theorem latestDataUpdate_is_maximum
  (dips alchemy volatility volumeProfile confluence recipe
     : updatedField) :
  let six := [dips; alchemy; volatility; volumeProfile; confluence;
              recipe] in
  let latest :=
    latestDataUpdate dateGetTime dips alchemy volatility volumeProfile
      confluence recipe in
  (latest = None <-> forall u, In u six -> updated_truthy u = false)
  /\ ((exists u, In u six /\ updated_truthy u = true) ->
      (forall u, In u six -> updated_truthy u = true ->
                 exists t, getTime dateGetTime u = Num t) ->
      exists m,
        latest = Some (Num m)
        /\ (exists u,
              In u six /\ updated_truthy u = true
              /\ getTime dateGetTime u = Num m)
        /\ forall u t,
            In u six -> updated_truthy u = true ->
            getTime dateGetTime u = Num t -> (t <= m)%Z)
  /\ ((exists u,
         In u six /\ updated_truthy u = true
         /\ getTime dateGetTime u = NaN) ->
      latest = Some NaN).
Proof.
  intros six latest. split; [|split].
  - apply latestOf_null.
  - apply latestOf_max.
  - apply latestOf_invalid.
Qed.
End Latest.

Lemma latestDataUpdate_is_maximum_witness :
  latestDataUpdate Scenario.epochDate
    (Str "1970-01-01T00:00:01.000Z") Undefined Null
    (Str "1970-01-01T00:00:05.000Z") (Str "") Undefined
  = Some (Num 5000)
  /\ (latestDataUpdate Scenario.epochDate
        Undefined Null (Str "") Undefined Null Undefined = None).
Proof.
  split.
  - destruct (latestDataUpdate_is_maximum Scenario.epochDate
                (Str "1970-01-01T00:00:01.000Z") Undefined Null
                (Str "1970-01-01T00:00:05.000Z") (Str "") Undefined)
      as [_ [H _]].
    destruct H as [m [E _]].
    + exists (Str "1970-01-01T00:00:05.000Z"). split; [|reflexivity].
      simpl. tauto.
    + intros u I T.
      simpl in I.
      destruct I as [<-|[<-|[<-|[<-|[<-|[<-|[]]]]]]];
        try discriminate T.
      * exists 1000%Z. reflexivity.
      * exists 5000%Z. reflexivity.
    + assert (E' := E). vm_compute in E'. injection E' as <-. exact E.
  - apply (latestDataUpdate_is_maximum Scenario.epochDate
             Undefined Null (Str "") Undefined Null Undefined).
    intros u I. simpl in I.
    destruct I as [<-|[<-|[<-|[<-|[<-|[<-|[]]]]]]]; reflexivity.
Defined.

End Page.

(** ** The routes *)

Section Routes.
Import Route View.
Variable c : category.

Local Abbreviation R := (Raw c).
Local Abbreviation O := (Opportunity c).

Lemma fetchData_run (w : world R) (s : state O) :
  fetchData c w s
  = (fst (fetchDataRun c w s), Val (snd (fetchDataRun c w s))).
Proof.
  unfold fetchData, fetchDataRun, bind, try_catch, fetch, Date_now, json,
    properties, ret, raise, settle, noData.
  simpl. answers; first [reflexivity | congruence].
Qed.

Lemma fetchData_never_raises (w : world R) (s : state O) :
  exists s' r, fetchData c w s = (s', Val r).
Proof. rewrite fetchData_run. eauto. Qed.

(** [fetch...Data] leaves the module's variable alone, and the network
    is asked for the primary first, then only for the secondary. *)
Lemma fetchDataRun_state (w : world R) (s : state O) :
  let s' := fst (fetchDataRun c w s) in
  cache s' = cache s
  /\ (step s < step s')%nat
  /\ exists rest,
      sent s' = (sent s ++ GitHubApi (summaryFile c) :: rest)%list
      /\ (forall q, In q rest -> exists t, q = RawCdn (summaryFile c) t)
      /\ (rest = []
          <-> exists r,
              network w (step s) (GitHubApi (summaryFile c)) = Resolved r
              /\ ok r = true).
Proof.
  unfold fetchDataRun. simpl.
  destruct (network w (step s) (GitHubApi (summaryFile c)))
    as [|r] eqn:P; [|destruct (ok r) eqn:K]; answers; simpl;
    (split; [reflexivity|]); (split; [lia|]);
    repeat rewrite <- app_assoc; simpl;
    eexists; (split; [reflexivity|]); split.
  all: try (intros q I; simpl in I;
            repeat (destruct I as [<-|I]; [eexists; reflexivity|]);
            now destruct I).
  all: split;
    [ intro E; first [discriminate E | eexists; split; [reflexivity|exact K]]
    | intros [r' [E K']]; first [reflexivity | congruence] ].
Qed.

Lemma GET_cached (w : world R) (s : state O) (e : cacheEntry O) :
  cache s = Some e ->
  elapsed_lt (clock w (step s)) (timestamp e) CACHE_DURATION = true ->
  tryBlock c w s = (tick s, Val (cachedResponse c e))
  /\ GET c w s = (tick s, Val (cachedResponse c e)).
Proof.
  intros C F.
  unfold GET, try_catch, tryBlock, bind, Date_now, read_cache. simpl.
  rewrite C. simpl. rewrite F. split; reflexivity.
Qed.

Lemma GET_refreshed (w : world R) (s s1 : state O) (r : fetched R)
  (l : list R) :
  isFresh c (cache s) (clock w (step s)) = false ->
  fetchDataRun c w (tick s) = (s1, r) ->
  usable (items r) = Some l ->
  let ts := dataTime c w (updated r) (clock w (step s)) in
  let entry := {| data := processData c l; timestamp := ts |} in
  let answer := freshResponse c (processData c l) ts (updated r) in
  tryBlock c w s = (storing s1 entry, Val answer)
  /\ GET c w s = (storing s1 entry, Val answer).
Proof.
  intros F E I.
  unfold GET, try_catch, tryBlock, bind, Date_now, read_cache. simpl.
  simpl in F. rewrite F.
  rewrite fetchData_run. change (cache (tick s)) with (cache s).
  rewrite E. simpl. unfold process, usable in *.
  destruct (items r) as [a|]; [|discriminate I]. rewrite I. simpl.
  unfold dataTimestamp, dataTime, Date_getTime, ret, write_cache.
  destruct (updated_truthy (updated r)); simpl; split; reflexivity.
Qed.

Lemma GET_failed (w : world R) (s s1 : state O) (r : fetched R) :
  isFresh c (cache s) (clock w (step s)) = false ->
  fetchDataRun c w (tick s) = (s1, r) ->
  usable (items r) = None ->
  tryBlock c w s = (s1, Raise TypeError)
  /\ GET c w s = (tick s1, Val (errorResponse c (clock w (step s1)))).
Proof.
  intros F E I.
  unfold GET, try_catch, tryBlock, bind, Date_now, read_cache. simpl.
  simpl in F. rewrite F.
  rewrite fetchData_run. change (cache (tick s)) with (cache s).
  rewrite E. simpl. unfold process, usable in *.
  destruct (items r) as [a|]; [rewrite I|]; simpl; split; reflexivity.
Qed.

Lemma isFresh_entry (entry : option (cacheEntry O)) (now : Z) :
  isFresh c entry now = true ->
  exists e,
    entry = Some e
    /\ elapsed_lt now (timestamp e) CACHE_DURATION = true.
Proof.
  destruct entry as [e|]; simpl; [|discriminate]. eauto.
Qed.





Lemma fetchData_unavailable (w : world R) (s : state O) :
  (forall n q,
      match network w n q with
      | Rejected => True
      | Resolved r =>
          ok r = false \/ body r = NotJson \/ body r = Json JsonNull
      end) ->
  snd (fetchDataRun c w s) = noData c.
Proof.
  intro H. unfold fetchDataRun.
  assert (S : forall n q r, network w n q = Resolved r ->
                            settle c r = noData c).
  { intros n q r E. specialize (H n q). rewrite E in H.
    unfold settle, noData.
    destruct H as [K|[B|B]]; rewrite ?K, ?B; [reflexivity| |];
      now destruct (ok r). }
  repeat match goal with
         | |- context [network w ?n ?q] =>
             let E := fresh "E" in
             destruct (network w n q) eqn:E;
             [|apply S in E]
         end;
    simpl; try reflexivity; try assumption;
    destruct (ok _); simpl; try reflexivity; assumption.
Qed.

(** A request is answered from the cache exactly when the entry is
    inside the window. *)
Lemma GET_cases (w : world R) (s : state O) :
  (exists e,
      cache s = Some e
      /\ isFresh c (cache s) (clock w (step s)) = true
      /\ tryBlock c w s = (tick s, Val (cachedResponse c e))
      /\ GET c w s = (tick s, Val (cachedResponse c e)))
  \/ (exists s1 r l,
        isFresh c (cache s) (clock w (step s)) = false
        /\ fetchDataRun c w (tick s) = (s1, r)
        /\ usable (items r) = Some l
        /\ let ts := dataTime c w (updated r) (clock w (step s)) in
           let entry := {| data := processData c l; timestamp := ts |} in
           let answer := freshResponse c (processData c l) ts (updated r) in
           tryBlock c w s = (storing s1 entry, Val answer)
           /\ GET c w s = (storing s1 entry, Val answer))
  \/ (exists s1 r,
        isFresh c (cache s) (clock w (step s)) = false
        /\ fetchDataRun c w (tick s) = (s1, r)
        /\ usable (items r) = None
        /\ tryBlock c w s = (s1, Raise TypeError)
        /\ GET c w s
           = (tick s1, Val (errorResponse c (clock w (step s1))))).
Proof.
  destruct (isFresh c (cache s) (clock w (step s))) eqn:F.
  - left. destruct (isFresh_entry _ _ F) as [e [C L]].
    exists e. destruct (GET_cached w s C L). auto.
  - right.
    destruct (fetchDataRun c w (tick s)) as [s1 r] eqn:E.
    destruct (usable (items r)) as [l|] eqn:I.
    + left. exists s1, r, l.
      destruct (GET_refreshed w s F E I). auto.
    + right. exists s1, r.
      destruct (GET_failed w s F E I). auto.
Qed.


(** A request that finds no fresh entry asks the contents API. *)
Lemma GET_fetches (w : world R) (s s' : state O) (r : httpResponse O) :
  isFresh c (cache s) (clock w (step s)) = false ->
  GET c w s = (s', Val r) ->
  exists rest,
    sent s' = (sent s ++ GitHubApi (summaryFile c) :: rest)%list.
Proof.
  intros F G.
  destruct (fetchDataRun_state w (tick s)) as [_ [_ [rest [S _]]]].
  simpl in S.
  destruct (GET_cases w s)
    as [[e [_ [F' _]]]|[[s1 [r' [l [_ [E [_ [_ G']]]]]]]
                       |[s1 [r' [_ [E [_ [_ G']]]]]]]].
  - congruence.
  - rewrite G' in G. injection G as <- _. rewrite E in S. eauto.
  - rewrite G' in G. injection G as <- _. rewrite E in S. eauto.
Qed.

Lemma processData_nth (l : list R) (i : nat) :
  nth_error (processData c l) i
  = option_map (fun item => processOne c item i) (nth_error l i).
Proof. rewrite processData_map. apply map_index_nth. Qed.

Lemma processData_length (l : list R) :
  List.length (processData c l) = List.length l.
Proof. rewrite processData_map. apply map_index_length. Qed.

(** What [fetch...Data] returns, read off the response it ends with. *)
Lemma fetchDataRun_last (w : world R) (s : state O) :
  snd (fetchDataRun c w s)
  = match documentOf (lastAnswer c w (step s)) with
    | Some (its, u) => {| items := its; updated := u |}
    | None => noData c
    end.
Proof.
  unfold fetchDataRun, lastAnswer, documentOf, settle, noData. simpl.
  destruct (network w (step s) (GitHubApi (summaryFile c)))
    as [|r] eqn:P; [|destruct (ok r) eqn:K]; answers;
    first [reflexivity | congruence].
Qed.

Lemma errorMessage_messageOf : errorMessage c = messageOf c.
Proof. destruct c; reflexivity. Qed.

Lemma records_map_Some {A : Type} (l : list A) :
  records (map Some l) = Some l.
Proof.
  induction l as [|x xs IH]; simpl; [reflexivity|]. now rewrite IH.
Qed.

End Routes.

(** ** The endpoints *)

Section Endpoints.
Import Route View.

(** C1, as amended.  When a request has been answered with data and the
    next request reads a clock less than 5000 ms past the [timestamp] of
    that answer, the next request is answered with the same data and
    [cached: true], sends nothing to the source and leaves the cache as it
    is.  The [timestamp] of an answer that was fetched, which is also that
    of the entry it stored, is the time of the source's [updated] when it
    is present and the time of the request otherwise. *)
Theorem freshness_window (c : category) (w : world (Raw c))
  (s s1 : state (Opportunity c)) (r1 : httpResponse (Opportunity c))
  (d1 : list (Opportunity c)) :
  GET c w s = (s1, Val r1) ->
  data_ (httpBody r1) = Some d1 ->
  (elapsed_lt (clock w (step s1)) (timestamp_ (httpBody r1)) CACHE_DURATION
   = true ->
   exists s2 r2,
     GET c w s1 = (s2, Val r2)
     /\ data_ (httpBody r2) = Some d1
     /\ cached (httpBody r2) = Some true
     /\ sent s2 = sent s1
     /\ cache s2 = cache s1)
  /\ (cached (httpBody r1) = Some false ->
      exists u,
        dataUpdated (httpBody r1) = Some u
        /\ timestamp_ (httpBody r1) = dataTime c w u (clock w (step s))).
Proof.
  intros G D.
  assert (K : (exists e, cache s1 = Some e /\ data e = d1
                         /\ timestamp e = timestamp_ (httpBody r1))
              /\ (cached (httpBody r1) = Some false ->
                  exists u,
                    dataUpdated (httpBody r1) = Some u
                    /\ timestamp_ (httpBody r1)
                       = dataTime c w u (clock w (step s)))).
  { destruct (GET_cases c w s)
      as [[e [C [_ [_ G']]]]|[[s' [r' [l [_ [_ [_ [_ G']]]]]]]
                             |[s' [r' [_ [_ [_ [_ G']]]]]]]];
      rewrite G' in G; injection G as <- <-; simpl in D.
    - split; [|discriminate]. exists e. injection D as <-. auto.
    - split.
      + eexists. injection D as <-. simpl. auto.
      + intros _. eexists. simpl. split; reflexivity.
    - discriminate D. }
  destruct K as [[e [C [<- T]]] N]. split; [|exact N].
  intro F. rewrite <- T in F.
  destruct (GET_cached c w s1 C F) as [_ G2].
  exists (tick s1), (cachedResponse c e). auto.
Qed.

Lemma freshness_window_witness :
  exists s2 r2,
    GET alchemy_floors Scenario.steadySource
      (fst (GET alchemy_floors Scenario.steadySource initial))
    = (s2, Val r2)
    /\ data_ (httpBody r2)
       = Some (AlchemyFloors.processAlchemyData [Scenario.runeAxe])
    /\ cached (httpBody r2) = Some true
    /\ sent s2 = [GitHubApi "alchemy-floors.json"].
Proof.
  destruct (@freshness_window alchemy_floors Scenario.steadySource initial
              _ _ _ eq_refl eq_refl) as [H _].
  destruct (H eq_refl) as [s2 [r2 [G [D [K [S _]]]]]].
  exists s2, r2. auto.
Defined.

(** C1, counterexample.  The source dates its summary at the epoch.  A
    first request, one minute later, is answered with the Rune axe; a
    second request 2 ms after the first finds the entry it stored older
    than the window, fetches again, and is answered with [cached: false]
    and other data. *)
Lemma dated_entry_is_refetched :
  let run := Scenario.requests alchemy_floors Scenario.datedSource 2
               initial in
  exists r1 r2,
    snd run = [Val r1; Val r2]
    /\ (clock Scenario.datedSource 2 - clock Scenario.datedSource 0
        < CACHE_DURATION)%Z
    /\ cached (httpBody r2) = Some false
    /\ data_ (httpBody r1)
       = Some (AlchemyFloors.processAlchemyData [Scenario.runeAxe])
    /\ data_ (httpBody r2) = Some []
    /\ sent (fst run)
       = [GitHubApi "alchemy-floors.json"; GitHubApi "alchemy-floors.json"].
Proof.
  do 2 eexists. split; [reflexivity|]. repeat split.
Qed.

(** The same without dates: the source writes [updated: null].  The
    second of three requests is answered from the cache; the third,
    2000 ms after the second, is not. *)
Lemma window_starts_at_the_entry :
  let run := Scenario.requests alchemy_floors Scenario.undatedSource 3
               initial in
  exists r1 r2 r3,
    snd run = [Val r1; Val r2; Val r3]
    /\ cached (httpBody r2) = Some true
    /\ (clock Scenario.undatedSource 3 - clock Scenario.undatedSource 2
        < CACHE_DURATION)%Z
    /\ cached (httpBody r3) = Some false
    /\ data_ (httpBody r3) <> data_ (httpBody r2).
Proof.
  do 3 eexists. split; [reflexivity|]. repeat split. discriminate.
Qed.

(** C2, as amended.  Whatever the network does, [fetch...Data] returns to
    its caller, without raising and without touching the cache, after it
    has asked the contents API.  What it returns is decided by the
    response it ends with.  It is the empty result [{ items: [],
    updated: null }] when its last request was rejected, and when that
    response has a non-success status, a body that is not JSON or the
    JSON [null].  Otherwise it is the [items] and the [updated] of the
    JSON document of that response, verbatim: a document that lacks
    [items] gives [items = undefined], and the request that fetched it
    is answered 500 with the error message of the route and no data,
    the cache being left as it was. *)
Theorem fetcher_never_raises (c : category) (w : world (Raw c))
  (s : state (Opportunity c)) :
  (exists s' r,
      fetchData c w s = (s', Val r)
      /\ cache s' = cache s
      /\ (exists rest,
            sent s' = (sent s ++ GitHubApi (summaryFile c) :: rest)%list)
      /\ (lastAnswer c w (step s) = None ->
          items r = Some [] /\ updated r = Null)
      /\ (forall resp,
            lastAnswer c w (step s) = Some resp ->
            ok resp = false \/ body resp = NotJson
            \/ body resp = Json JsonNull ->
            items r = Some [] /\ updated r = Null)
      /\ (forall resp its u,
            lastAnswer c w (step s) = Some resp ->
            ok resp = true ->
            body resp = Json (JsonDoc its u) ->
            items r = its /\ updated r = u))
  /\ forall s1 r1,
      isFresh c (cache s) (clock w (step s)) = false ->
      fetchData c w (tick s) = (s1, Val r1) ->
      items r1 = None ->
      exists a,
        GET c w s = (tick s1, Val a)
        /\ httpStatus a = 500%Z
        /\ success (httpBody a) = false
        /\ error (httpBody a) = Some (messageOf c)
        /\ data_ (httpBody a) = None
        /\ cache (tick s1) = cache s.
Proof.
  split.
  - rewrite fetchData_run. do 2 eexists. split; [reflexivity|].
    destruct (fetchDataRun_state c w s) as [C [_ [rest [S _]]]].
    split; [exact C|]. split; [eauto|].
    rewrite fetchDataRun_last. unfold documentOf.
    split; [|split].
    + intros ->. split; reflexivity.
    + intros resp -> [K|[B|B]]; rewrite ?K, ?B;
        [|destruct (ok resp)..]; split; reflexivity.
    + intros resp its u -> K B. rewrite K, B. split; reflexivity.
  - intros s1 r1 F E I. rewrite fetchData_run in E.
    injection E as E1 E2.
    destruct (fetchDataRun c w (tick s)) as [s1' r1'] eqn:E.
    simpl in E1, E2. subst s1' r1'.
    assert (U : usable (items r1) = None) by now rewrite I.
    destruct (GET_failed c w s F E U) as [_ G].
    eexists. split; [exact G|]. simpl.
    rewrite errorMessage_messageOf. repeat split.
    pose proof (fetchDataRun_state c w (tick s)) as H.
    rewrite E in H. simpl in H. apply H.
Qed.

Lemma fetcher_never_raises_witness :
  (exists s' r,
      fetchData alchemy_floors Scenario.unreachableSource initial
      = (s', Val r)
      /\ items r = Some [] /\ updated r = Null)
  /\ (exists s' r,
        fetchData alchemy_floors Scenario.steadySource initial = (s', Val r)
        /\ items r = Some [Some Scenario.runeAxe] /\ updated r = Null)
  /\ exists a,
      snd (GET alchemy_floors Scenario.emptyObjectSource initial) = Val a
      /\ httpStatus a = 500%Z.
Proof.
  split; [|split].
  - destruct (fetcher_never_raises alchemy_floors
                Scenario.unreachableSource initial)
      as [[s' [r [E [_ [_ [H _]]]]]] _].
    exists s', r. split; [exact E | exact (H eq_refl)].
  - destruct (fetcher_never_raises alchemy_floors
                Scenario.steadySource initial)
      as [[s' [r [E [_ [_ [_ [_ H]]]]]]] _].
    exists s', r. split; [exact E|].
    exact (H _ _ _ eq_refl eq_refl eq_refl).
  - destruct (fetcher_never_raises alchemy_floors
                Scenario.emptyObjectSource initial) as [_ H].
    destruct (H _ _ eq_refl eq_refl eq_refl) as [a [G [S _]]].
    exists a. rewrite G. split; [reflexivity | exact S].
Defined.

(** C2, counterexample.  Both tiers answer 200 with the JSON object
    [{}].  [fetchAlchemyData] returns [{ items: undefined, updated:
    undefined }], not the empty result, and [GET] answers 500. *)
Lemma missing_items_is_an_error :
  snd (fetchData alchemy_floors Scenario.emptyObjectSource initial)
  = Val {| items := None; updated := Undefined |}
  /\ {| items := None; updated := Undefined |}
     <> noData alchemy_floors
  /\ snd (GET alchemy_floors Scenario.emptyObjectSource initial)
     = Val (errorResponse alchemy_floors 60002).
Proof. repeat split. discriminate. Qed.

(** C4, as amended.  Every request is answered, in one of three shapes.
    Fresh: status 200 with [success: true], [data], [cached: false],
    [count], the length of [data], and [dataUpdated], which is the
    [updated] of the document the fetcher ended with, verbatim, and
    [null] when it ended with none; [timestamp] is the time of that
    [updated] when it is truthy and the time of the request otherwise.
    Cached: status 200 with [success: true], the [data] and the
    [timestamp] of the entry held, [cached: true] and no [dataUpdated];
    with [count], the length of [data], on the volatility,
    volume-profile, confluence and recipe routes.  Failure: status 500
    with [success: false], the [error] of the route and a [timestamp],
    and nothing else. *)
Theorem response_shapes (c : category) (w : world (Raw c))
  (s : state (Opportunity c)) :
  exists s' r,
    GET c w s = (s', Val r)
    /\ let b := httpBody r in
       (httpStatus r = 200%Z /\ success b = true /\ error b = None
        /\ cached b = Some false
        /\ exists d u,
            data_ b = Some d
            /\ count b = Some (List.length d)
            /\ dataUpdated b = Some u
            /\ u = match documentOf (lastAnswer c w (1 + step s)) with
                   | Some (_, v) => v
                   | None => Null
                   end
            /\ timestamp_ b
               = if updated_truthy u then Date_of (dateGetTime w) u
                 else Num (clock w (step s)))
       \/ (httpStatus r = 200%Z /\ success b = true /\ error b = None
           /\ cached b = Some true /\ dataUpdated b = None
           /\ metadata b = None
           /\ exists e,
               cache s = Some e
               /\ data_ b = Some (data e)
               /\ timestamp_ b = timestamp e
               /\ (In c [volatility_breakout; volume_profile; confluence;
                         recipe_arbitrage] ->
                   count b = Some (List.length (data e))))
       \/ (httpStatus r = 500%Z /\ success b = false
           /\ error b = Some (messageOf c)
           /\ (exists t, timestamp_ b = Num t)
           /\ data_ b = None /\ dataUpdated b = None /\ cached b = None
           /\ count b = None /\ metadata b = None).
Proof.
  destruct (GET_cases c w s)
    as [[e [C [_ [_ G]]]]|[[s1 [r [l [_ [E [_ [_ G]]]]]]]
                          |[s1 [r [_ [_ [_ [_ G]]]]]]]];
    rewrite G; do 2 eexists; (split; [reflexivity|]); simpl.
  - right; left. repeat split. exists e. repeat split; [exact C|].
    intro I. simpl in I.
    destruct I as [<-|[<-|[<-|[<-|[]]]]]; reflexivity.
  - left. repeat split. do 2 eexists. repeat split.
    pose proof (fetchDataRun_last c w (tick s)) as L.
    rewrite E in L. simpl in L.
    destruct (documentOf (lastAnswer c w (S (step s)))) as [[its v]|];
      rewrite L; reflexivity.
  - right; right. rewrite errorMessage_messageOf.
    repeat split. eexists. reflexivity.
Qed.

Lemma response_shapes_witness :
  (exists s' r,
      GET volume_profile Scenario.steadyVolume
        (fst (GET volume_profile Scenario.steadyVolume initial))
      = (s', Val r)
      /\ cached (httpBody r) = Some true
      /\ count (httpBody r) = Some 1%nat)
  /\ (exists s' r,
        GET volume_profile Scenario.steadyVolume initial = (s', Val r)
        /\ cached (httpBody r) = Some false
        /\ dataUpdated (httpBody r) = Some Null
        /\ timestamp_ (httpBody r) = Num 60000)
  /\ exists s' r,
      GET alchemy_floors Cases.keylessSource initial = (s', Val r)
      /\ cached (httpBody r) = Some false
      /\ dataUpdated (httpBody r) = Some Undefined
      /\ timestamp_ (httpBody r) = Num 60000.
Proof.
  split; [|split].
  - destruct (response_shapes volume_profile Scenario.steadyVolume
                (fst (GET volume_profile Scenario.steadyVolume initial)))
      as [s' [r [G H]]].
    exists s', r. split; [exact G|].
    vm_compute in G. injection G as _ <-. split; reflexivity.
  - destruct (response_shapes volume_profile Scenario.steadyVolume initial)
      as [s' [r [G H]]].
    exists s', r. split; [exact G|].
    vm_compute in G. injection G as _ <-. repeat split.
  - destruct (response_shapes alchemy_floors Cases.keylessSource initial)
      as [s' [r [G H]]].
    exists s', r. split; [exact G|].
    vm_compute in G. injection G as _ <-. repeat split.
Defined.

(** C4, counterexample.  The second of two requests in a row to the
    alchemy route is answered from the cache, with status 200 and neither
    [count] nor [dataUpdated]. *)
Lemma cached_response_lacks_count :
  let run := Scenario.requests alchemy_floors Scenario.steadySource 2
               initial in
  exists r1 r2,
    snd run = [Val r1; Val r2]
    /\ httpStatus r2 = 200%Z
    /\ success (httpBody r2) = true
    /\ cached (httpBody r2) = Some true
    /\ count (httpBody r2) = None
    /\ dataUpdated (httpBody r2) = None.
Proof.
  do 2 eexists. split; [reflexivity|]. repeat split.
Qed.




(** C9.  Within [fetch...Data] the first request goes to the contents
    API; the flat file is asked for only afterwards, and only when the
    contents API did not answer with a success status.  When the
    contents API answers 403 and the flat file answers with a document
    of records, a request that finds no fresh entry asks the two in that
    order and is answered 200 with [success: true], no [error],
    [cached: false], one opportunity per record of the document, each
    normalized from the record at its index, their number as [count],
    the [updated] of the document as [dataUpdated] and its time as
    [timestamp]; that answer is what the cache then holds. *)
Theorem fallback_is_sequential (c : category) (w : world (Raw c))
  (s : state (Opportunity c)) :
  (exists rest,
      sent (fst (fetchData c w s))
      = (sent s ++ GitHubApi (summaryFile c) :: rest)%list
      /\ (forall q, In q rest -> exists t, q = RawCdn (summaryFile c) t)
      /\ (rest = []
          <-> exists r,
              network w (step s) (GitHubApi (summaryFile c)) = Resolved r
              /\ ok r = true))
  /\ forall (r1 r2 : response (Raw c)) (its : list (Raw c))
       (u : updatedField),
      isFresh c (cache s) (clock w (step s)) = false ->
      network w (1 + step s) (GitHubApi (summaryFile c)) = Resolved r1 ->
      status r1 = 403%Z ->
      network w (3 + step s)
        (RawCdn (summaryFile c) (clock w (2 + step s)))
      = Resolved r2 ->
      ok r2 = true ->
      body r2 = Json (JsonDoc (Some (map Some its)) u) ->
      exists s' a d,
        GET c w s = (s', Val a)
        /\ sent s'
           = (sent s
              ++ [GitHubApi (summaryFile c);
                  RawCdn (summaryFile c) (clock w (2 + step s))])%list
        /\ httpStatus a = 200%Z
        /\ success (httpBody a) = true
        /\ error (httpBody a) = None
        /\ cached (httpBody a) = Some false
        /\ data_ (httpBody a) = Some d
        /\ List.length d = List.length its
        /\ (forall i item,
              nth_error its i = Some item ->
              nth_error d i = Some (processOne c item i))
        /\ count (httpBody a) = Some (List.length its)
        /\ dataUpdated (httpBody a) = Some u
        /\ timestamp_ (httpBody a)
           = (if updated_truthy u then Date_of (dateGetTime w) u
              else Num (clock w (step s)))
        /\ cache s'
           = Some {| data := d; timestamp := timestamp_ (httpBody a) |}.
Proof.
  split.
  - rewrite fetchData_run. simpl.
    apply (fetchDataRun_state c w s).
  - intros r1 r2 its u F P K S K2 B.
    assert (E : fetchDataRun c w (tick s)
                = (sending (tick (sending (tick s)
                                    (GitHubApi (summaryFile c))))
                     (RawCdn (summaryFile c) (clock w (2 + step s))),
                   {| items := Some (map Some its); updated := u |})).
    { unfold fetchDataRun. simpl. simpl in P, S. rewrite P.
      assert (N : ok r1 = false) by (unfold ok; now rewrite K).
      rewrite N, S. unfold settle. now rewrite K2, B. }
    assert (U : usable (items {| items := Some (map Some its);
                                 updated := u |}) = Some its)
      by apply records_map_Some.
    destruct (GET_refreshed c w s F E U) as [_ G].
    do 3 eexists. split; [exact G|]. simpl.
    split; [now rewrite <- app_assoc|].
    repeat split.
    + apply processData_length.
    + intros i item N. rewrite processData_nth, N. reflexivity.
    + now rewrite processData_length.
Qed.

Lemma fallback_is_sequential_witness :
  exists s' a o,
    GET alchemy_floors Scenario.rateLimitedSource initial = (s', Val a)
    /\ sent s'
       = [GitHubApi "alchemy-floors.json";
          RawCdn "alchemy-floors.json" 60002]
    /\ httpStatus a = 200%Z
    /\ error (httpBody a) = None
    /\ data_ (httpBody a) = Some [o]
    /\ AlchemyFloors.AlchemyOpportunity.name o = "Rune axe"
    /\ AlchemyFloors.AlchemyOpportunity.id o = "alchemy-0"
    /\ AlchemyFloors.AlchemyOpportunity.currentLow o == 100
    /\ count (httpBody a) = Some 1%nat
    /\ dataUpdated (httpBody a) = Some (Str "1970-01-01T00:00:05.000Z")
    /\ timestamp_ (httpBody a) = Num 5000.
Proof.
  destruct (fallback_is_sequential alchemy_floors
              Scenario.rateLimitedSource initial) as [_ H].
  destruct (H _ _ [Scenario.runeAxe] (Str "1970-01-01T00:00:05.000Z")
              eq_refl eq_refl eq_refl eq_refl eq_refl eq_refl)
    as [s' [a [d [G [S [K [_ [E [_ [D [L [N [C [U [T _]]]]]]]]]]]]]]].
  destruct d as [|o [|o' d]]; try discriminate L.
  exists s', a, o.
  specialize (N 0%nat _ eq_refl). simpl in N. injection N as ->.
  repeat split; try assumption; reflexivity.
Defined.

End Endpoints.

(** ** More on the endpoints *)

Section MoreEndpoints.
Import Route View.

Lemma GET_answers (c : category) (w : world (Raw c))
  (s : state (Opportunity c)) :
  exists s' r, GET c w s = (s', Val r).
Proof.
  destruct (GET_cases c w s)
    as [[e [_ [_ [_ G]]]]|[[s1 [r [l [_ [_ [_ [_ G]]]]]]]
                          |[s1 [r [_ [_ [_ [_ G]]]]]]]];
    rewrite G; eauto.
Qed.

(** X1.  A request is answered with [cached: true] exactly when the
    module holds an entry whose timestamp is a time less than 5000 ms
    before the clock the request reads; the answer is then the entry's,
    and the request sends nothing and stores nothing. *)
Theorem cached_iff_within_window (c : category) (w : world (Raw c))
  (s s' : state (Opportunity c)) (r : httpResponse (Opportunity c)) :
  GET c w s = (s', Val r) ->
  (cached (httpBody r) = Some true
   <-> exists e t,
       cache s = Some e /\ timestamp e = Num t
       /\ (clock w (step s) - t < CACHE_DURATION)%Z)
  /\ (cached (httpBody r) = Some true ->
      exists e,
        cache s = Some e /\ r = cachedResponse c e
        /\ sent s' = sent s /\ cache s' = cache s).
Proof.
  intro G.
  assert (W : isFresh c (cache s) (clock w (step s)) = true
              <-> exists e t,
                  cache s = Some e /\ timestamp e = Num t
                  /\ (clock w (step s) - t < CACHE_DURATION)%Z).
  { unfold isFresh. destruct (cache s) as [[d [t|]]|]; simpl.
    - rewrite Z.ltb_lt. split.
      + intro L. eexists. exists t. auto.
      + intros [e [t' [E [T L]]]]. injection E as <-. simpl in T.
        now injection T as <-.
    - split; [discriminate|].
      intros [e [t' [E [T _]]]]. injection E as <-. discriminate T.
    - split; [discriminate|]. intros [e [t' [E _]]]. discriminate E. }
  destruct (GET_cases c w s)
    as [[e [C [F [_ G']]]]|[[s1 [r' [l [F [_ [_ [_ G']]]]]]]
                           |[s1 [r' [F [_ [_ [_ G']]]]]]]];
    rewrite G' in G; injection G as <- <-; simpl.
  - split.
    + split; [intros _; now apply W | reflexivity].
    + intros _. exists e. auto.
  - split; [|discriminate].
    split; [discriminate|]. intro H. apply W in H. congruence.
  - split; [|discriminate].
    split; [discriminate|]. intro H. apply W in H. congruence.
Qed.

Lemma cached_iff_within_window_witness :
  exists e,
    cache (fst (GET alchemy_floors Scenario.steadySource initial)) = Some e
    /\ snd (GET alchemy_floors Scenario.steadySource
              (fst (GET alchemy_floors Scenario.steadySource initial)))
       = Val (cachedResponse alchemy_floors e).
Proof.
  destruct (@cached_iff_within_window alchemy_floors Scenario.steadySource
              (fst (GET alchemy_floors Scenario.steadySource initial))
              _ _ eq_refl) as [_ H].
  destruct (H eq_refl) as [e [C [E _]]].
  exists e. split; [exact C|]. simpl. now rewrite <- E.
Defined.


Lemma processData_nil (c : category) : processData c [] = [].
Proof. destruct c; reflexivity. Qed.

(** X2.  When a request finds no fresh entry and the fetcher ends with
    no document (its last request was rejected, or the response it ends
    with has a non-success status, a body that is not JSON or the JSON
    [null]), the request is answered 200 with [success: true], an empty
    [data], [count: 0], [dataUpdated: null], [cached: false] and the
    time of the request as [timestamp], and the empty list replaces
    whatever the cache held, stamped with that time.  The outage is then
    served from the cache: a request that finds this entry and reads a
    clock less than 5000 ms later is answered 200 with the empty list
    and [cached: true] and sends nothing, whatever the source would
    answer by then. *)
Theorem outage_is_cached (c : category) (w : world (Raw c))
  (s : state (Opportunity c)) :
  isFresh c (cache s) (clock w (step s)) = false ->
  documentOf (lastAnswer c w (1 + step s)) = None ->
  let now := clock w (step s) in
  exists s1 a,
    GET c w s = (s1, Val a)
    /\ httpStatus a = 200%Z
    /\ success (httpBody a) = true
    /\ error (httpBody a) = None
    /\ data_ (httpBody a) = Some []
    /\ count (httpBody a) = Some 0%nat
    /\ dataUpdated (httpBody a) = Some Null
    /\ cached (httpBody a) = Some false
    /\ timestamp_ (httpBody a) = Num now
    /\ cache s1 = Some {| data := []; timestamp := Num now |}
    /\ forall (w' : world (Raw c)) (s' : state (Opportunity c)),
        cache s' = cache s1 ->
        (clock w' (step s') - now < 5000)%Z ->
        exists s2 a2,
          GET c w' s' = (s2, Val a2)
          /\ httpStatus a2 = 200%Z
          /\ success (httpBody a2) = true
          /\ data_ (httpBody a2) = Some []
          /\ cached (httpBody a2) = Some true
          /\ timestamp_ (httpBody a2) = Num now
          /\ sent s2 = sent s'
          /\ cache s2 = cache s'.
Proof.
  intros F U now.
  destruct (fetchDataRun c w (tick s)) as [s1 r] eqn:E.
  pose proof (fetchDataRun_last c w (tick s)) as N.
  rewrite E in N. simpl in N, U. rewrite U in N. subst r.
  destruct (GET_refreshed c w s F E eq_refl) as [_ G].
  simpl in G. rewrite processData_nil in G.
  do 2 eexists. split; [exact G|]. simpl.
  do 9 (split; [reflexivity|]).
  intros w' s' C L. simpl in C.
  destruct (GET_cached c w' s' C) as [_ G'].
  { simpl. apply Z.ltb_lt. exact L. }
  do 2 eexists. split; [exact G'|]. simpl. repeat split.
Qed.

Lemma outage_is_cached_witness :
  exists s1 a a2,
    GET alchemy_floors Scenario.unreachableSource initial = (s1, Val a)
    /\ data_ (httpBody a) = Some []
    /\ cached (httpBody a) = Some false
    /\ snd (GET alchemy_floors Cases.recoveringSource s1) = Val a2
    /\ data_ (httpBody a2) = Some []
    /\ cached (httpBody a2) = Some true.
Proof.
  destruct (@outage_is_cached alchemy_floors Scenario.unreachableSource
              initial eq_refl eq_refl)
    as [s1 [a [G [_ [_ [_ [D [_ [_ [K [_ [C H]]]]]]]]]]]].
  assert (G' := G). vm_compute in G'. injection G' as E _.
  destruct (H Cases.recoveringSource s1 eq_refl)
    as [s2 [a2 [G2 [_ [_ [D2 [K2 _]]]]]]].
  { rewrite <- E. vm_compute. reflexivity. }
  exists s1, a, a2. rewrite G2. repeat split; assumption.
Defined.

(** The requests one run of [fetch...Data] sends, in order. *)
Lemma fetchDataRun_sent (c : category) (w : world (Raw c))
  (s : state (Opportunity c)) :
  let api := GitHubApi (summaryFile c) in
  let flat1 := RawCdn (summaryFile c) (clock w (1 + step s)) in
  let flat2 := RawCdn (summaryFile c) (clock w (3 + step s)) in
  sent (fst (fetchDataRun c w s))
  = (sent s
     ++ match network w (step s) api with
        | Resolved r =>
            if ok r then [api]
            else
              match network w (2 + step s) flat1 with
              | Resolved _ => [api; flat1]
              | Rejected => [api; flat1; flat2]
              end
        | Rejected => [api; flat1]
        end)%list.
Proof.
  unfold fetchDataRun. simpl.
  destruct (network w (step s) (GitHubApi (summaryFile c)))
    as [|r] eqn:P; [|destruct (ok r) eqn:K]; answers; simpl;
    repeat rewrite <- app_assoc; reflexivity.
Qed.


(** X3.  A request sends nothing to the source when it finds a fresh
    entry, and otherwise one, two or three requests: first one to the
    contents API, then at most two for the flat file, each carrying the
    clock read just before it.  It sends three exactly when it found no
    fresh entry, the contents API answered with a non-success status and
    the first request for the flat file was rejected: the handler of
    that rejection asks for the flat file a second time.  (After a
    rejected request to the contents API the flat file is asked for
    once.) *)
Theorem at_most_three_requests (c : category) (w : world (Raw c))
  (s : state (Opportunity c)) :
  let api := GitHubApi (summaryFile c) in
  let flat1 := RawCdn (summaryFile c) (clock w (2 + step s)) in
  let flat2 := RawCdn (summaryFile c) (clock w (4 + step s)) in
  exists reqs,
    sent (fst (GET c w s)) = (sent s ++ reqs)%list
    /\ (reqs = [] \/ reqs = [api] \/ reqs = [api; flat1]
        \/ reqs = [api; flat1; flat2])
    /\ (reqs = [] <-> isFresh c (cache s) (clock w (step s)) = true)
    /\ (reqs = [api; flat1; flat2]
        <-> isFresh c (cache s) (clock w (step s)) = false
            /\ (exists r,
                    network w (1 + step s) api = Resolved r
                    /\ ok r = false)
            /\ network w (3 + step s) flat1 = Rejected).
Proof.
  intros api flat1 flat2.
  pose proof (fetchDataRun_sent c w (tick s)) as Q.
  assert (K : forall s1 r,
             fetchDataRun c w (tick s) = (s1, r) ->
             isFresh c (cache s) (clock w (step s)) = false ->
             exists reqs,
               sent s1 = (sent s ++ reqs)%list
               /\ (reqs = [] \/ reqs = [api] \/ reqs = [api; flat1]
                   \/ reqs = [api; flat1; flat2])
               /\ (reqs = []
                   <-> isFresh c (cache s) (clock w (step s)) = true)
               /\ (reqs = [api; flat1; flat2]
                   <-> isFresh c (cache s) (clock w (step s)) = false
                       /\ (exists r,
                               network w (1 + step s) api = Resolved r
                               /\ ok r = false)
                       /\ network w (3 + step s) flat1 = Rejected)).
  { intros s1 r E F. rewrite E in Q. subst api flat1 flat2.
    simpl in Q |- *. rewrite F.
    destruct (network w (S (step s)) (GitHubApi (summaryFile c)))
      as [|r1] eqn:P;
      [|destruct (ok r1) eqn:K1;
        [|destruct (network w (S (S (S (step s))))
                     (RawCdn (summaryFile c) (clock w (S (S (step s))))))
            eqn:P2]];
      eexists; (split; [exact Q|]);
      (split; [tauto|]);
      (split; [split; discriminate|]);
      (split;
       [ intro H; first [discriminate H
                        | split; [reflexivity|];
                          split; [eauto | reflexivity]]
       | intros [_ [[r' [H1 H2]] H3]];
         first [reflexivity | congruence] ]). }
  destruct (GET_cases c w s)
    as [[e [_ [F [_ G]]]]|[[s1 [r [l [F [E [_ [_ G]]]]]]]
                          |[s1 [r [F [E [_ [_ G]]]]]]]];
    rewrite G; simpl.
  - exists []. rewrite app_nil_r. split; [reflexivity|].
    split; [tauto|]. split; [tauto|].
    split; [discriminate|]. intros [F' _]. congruence.
  - exact (K s1 r E F).
  - exact (K s1 r E F).
Qed.

Lemma at_most_three_requests_witness :
  sent (fst (GET alchemy_floors Cases.flakySource initial))
  = [GitHubApi "alchemy-floors.json";
     RawCdn "alchemy-floors.json" 60002;
     RawCdn "alchemy-floors.json" 60004].
Proof.
  destruct (at_most_three_requests alchemy_floors Cases.flakySource initial)
    as [reqs [S [_ [_ T]]]].
  rewrite S. simpl. apply T.
  split; [reflexivity|]. split; [|reflexivity].
  eexists. split; reflexivity.
Defined.


(** X4.  Whenever a request is answered with data, the module holds
    afterwards exactly the data and the timestamp of that answer: the
    cache is always the last answer that carried data. *)
Theorem answer_mirrors_cache (c : category) (w : world (Raw c))
  (s s' : state (Opportunity c)) (r : httpResponse (Opportunity c))
  (d : list (Opportunity c)) :
  GET c w s = (s', Val r) ->
  data_ (httpBody r) = Some d ->
  cache s' = Some {| data := d; timestamp := timestamp_ (httpBody r) |}.
Proof.
  intros G D.
  destruct (GET_cases c w s)
    as [[e [C [_ [_ G']]]]|[[s1 [r' [l [_ [_ [_ [_ G']]]]]]]
                           |[s1 [r' [_ [_ [_ [_ G']]]]]]]];
    rewrite G' in G; injection G as <- <-; simpl in D |- *.
  - injection D as <-. rewrite C. now destruct e.
  - injection D as <-. reflexivity.
  - discriminate D.
Qed.

Lemma answer_mirrors_cache_witness :
  cache (fst (GET alchemy_floors Scenario.datedSource initial))
  = Some {| data := AlchemyFloors.processAlchemyData [Scenario.runeAxe];
            timestamp := Num 0 |}.
Proof.
  exact (@answer_mirrors_cache alchemy_floors Scenario.datedSource initial
           _ _ _ eq_refl eq_refl).
Defined.

(** [TimeClip] gives no time only beyond 8.64e15 ms from the epoch. *)
Lemma TimeClip_NaN (q : Q) :
  TimeClip q = NaN ->
  q < inject_Z (-8640000000000000) \/ inject_Z 8640000000000000 < q.
Proof.
  unfold TimeClip.
  destruct (Qle_bool (inject_Z (-8640000000000000)) q) eqn:A;
    [destruct (Qle_bool q (inject_Z 8640000000000000)) eqn:B|];
    simpl; intro H; try discriminate H.
  - right. apply Qnot_le_lt. intro L.
    apply Qle_bool_iff in L. congruence.
  - left. apply Qnot_le_lt. intro L.
    apply Qle_bool_iff in L. congruence.
Qed.

(** X5.  An answer carries a [timestamp] that is no number only when it
    was fetched from a document whose [updated] is truthy and is
    something [Date] cannot read: a non-empty string, or an object or an
    array, whose text is no date, or a number more than 8.64e15 ms away
    from the epoch.  The entry stored with it is never served: every
    later request that finds it, whatever clock it reads, asks the
    contents API again. *)
Theorem undatable_entry_never_served (c : category) (w : world (Raw c))
  (s s1 : state (Opportunity c)) (r1 : httpResponse (Opportunity c)) :
  GET c w s = (s1, Val r1) ->
  timestamp_ (httpBody r1) = NaN ->
  (exists u,
      dataUpdated (httpBody r1) = Some u
      /\ updated_truthy u = true
      /\ ((exists text,
              (u = Str text \/ u = Compound text)
              /\ dateGetTime w text = NaN)
          \/ exists q,
              u = Number q
              /\ (q < inject_Z (-8640000000000000)
                  \/ inject_Z 8640000000000000 < q)))
  /\ forall (w' : world (Raw c)) (s' s2 : state (Opportunity c))
       (r2 : httpResponse (Opportunity c)),
      cache s' = cache s1 ->
      GET c w' s' = (s2, Val r2) ->
      (cached (httpBody r2) = Some false \/ httpStatus r2 = 500%Z)
      /\ exists rest,
          sent s2 = (sent s' ++ GitHubApi (summaryFile c) :: rest)%list.
Proof.
  intros G T.
  assert (K : (exists u,
                  dataUpdated (httpBody r1) = Some u
                  /\ updated_truthy u = true
                  /\ Date_of (dateGetTime w) u = NaN)
              /\ exists d, cache s1 = Some {| data := d; timestamp := NaN |}).
  { destruct (GET_cases c w s)
      as [[e [C [F [_ G']]]]|[[s' [r' [l [_ [_ [_ [_ G']]]]]]]
                             |[s' [r' [_ [_ [_ [_ G']]]]]]]];
      rewrite G' in G; injection G as <- <-; simpl in T.
    - rewrite C in F. simpl in F. rewrite T in F. discriminate F.
    - simpl. rewrite T. split; [|eauto].
      unfold dataTime in T. exists (updated r').
      destruct (updated_truthy (updated r')); [auto | discriminate T].
    - discriminate T. }
  destruct K as [[u [D [V N]]] [d C]]. split.
  - exists u. split; [exact D|]. split; [exact V|].
    destruct u as [| |text|q|b|text]; simpl in N, V;
      try discriminate N; try discriminate V.
    + left. exists text. auto.
    + right. exists q. split; [reflexivity|]. now apply TimeClip_NaN.
    + left. exists text. auto.
  - intros w' s' s2 r2 C' G2.
    assert (F : isFresh c (cache s') (clock w' (step s')) = false)
      by (rewrite C', C; reflexivity).
    split; [|exact (GET_fetches c w' s' F G2)].
    destruct (GET_cases c w' s')
      as [[e [_ [F' _]]]|[[s3 [r' [l [_ [_ [_ [_ G']]]]]]]
                         |[s3 [r' [_ [_ [_ [_ G']]]]]]]].
    + congruence.
    + rewrite G' in G2. injection G2 as _ <-. now left.
    + rewrite G' in G2. injection G2 as _ <-. now right.
Qed.

Lemma undatable_entry_never_served_witness :
  (let run := Scenario.requests alchemy_floors Cases.undatableSource 2
                initial in
   exists r1 r2,
     snd run = [Val r1; Val r2]
     /\ timestamp_ (httpBody r1) = NaN
     /\ cached (httpBody r2) = Some false)
  /\ (let run := Scenario.requests alchemy_floors Cases.objectDatedSource 2
                   initial in
      exists r1 r2,
        snd run = [Val r1; Val r2]
        /\ timestamp_ (httpBody r1) = NaN
        /\ cached (httpBody r2) = Some false).
Proof.
  split.
  - destruct (@undatable_entry_never_served alchemy_floors
                Cases.undatableSource initial _ _ eq_refl eq_refl)
      as [_ H].
    destruct (H Cases.undatableSource _ _ _ eq_refl eq_refl) as [[K|K] _].
    + do 2 eexists. split; [reflexivity|].
      split; [reflexivity | exact K].
    + discriminate K.
  - destruct (@undatable_entry_never_served alchemy_floors
                Cases.objectDatedSource initial _ _ eq_refl eq_refl)
      as [_ H].
    destruct (H Cases.objectDatedSource _ _ _ eq_refl eq_refl)
      as [[K|K] _].
    + do 2 eexists. split; [reflexivity|].
      split; [reflexivity | exact K].
    + discriminate K.
Defined.




(** An [items] that holds [null] is an array, and the request that
    fetched it is answered 500: the callback of the Normalizer reads a
    property of [null]. *)
Lemma null_item_is_an_error :
  exists a,
    snd (GET alchemy_floors Cases.nullItemSource initial) = Val a
    /\ httpStatus a = 500%Z
    /\ success (httpBody a) = false
    /\ cache (fst (GET alchemy_floors Cases.nullItemSource initial)) = None.
Proof. eexists. repeat split. Qed.

End MoreEndpoints.

(** ** More on the Normalizers *)

Section MoreNormalizers.
Import Route View.

Lemma map_map_from {A B C} (g : B -> C) (f : A -> nat -> B) (l : list A)
  (k : nat) :
  map g (map_from f k l) = map_from (fun x i => g (f x i)) k l.
Proof.
  revert k; induction l as [|x xs IH]; intro k; simpl; [reflexivity|].
  now rewrite IH.
Qed.

Lemma map_from_In {A B} (f : A -> nat -> B) (l : list A) (k : nat) (y : B) :
  In y (map_from f k l) ->
  exists x i, (k <= i)%nat /\ In x l /\ y = f x i.
Proof.
  revert k; induction l as [|x xs IH]; intros k H; simpl in H.
  - destruct H.
  - destruct H as [<-|H].
    + exists x, k. simpl. auto.
    + destruct (IH _ H) as [x' [i [L [I E]]]].
      exists x', i. simpl. split; [lia|]. auto.
Qed.

Lemma map_from_NoDup {A B} (f : A -> nat -> B) (l : list A) (k : nat) :
  (forall x y i j, f x i = f y j -> i = j) ->
  NoDup (map_from f k l).
Proof.
  intro J. revert k; induction l as [|x xs IH]; intro k; simpl.
  - constructor.
  - constructor; [|apply IH].
    intro H. apply map_from_In in H.
    destruct H as [y [i [L [_ E]]]]. apply J in E. lia.
Qed.

(** The decimal writing of an index can be read back. *)
Lemma string_of_index_read (n : nat) :
  option_map Nat.of_uint (NilZero.uint_of_string (string_of_index n))
  = Some n.
Proof.
  unfold string_of_index.
  destruct (Nat.to_uint n) eqn:E;
    try (rewrite NilZero.usu by discriminate; simpl;
         rewrite <- E; now rewrite DecimalNat.Unsigned.of_to).
  rewrite NilZero.usu_nil. simpl.
  rewrite <- (DecimalNat.Unsigned.of_to n), E. reflexivity.
Qed.

Lemma string_of_index_inj (i j : nat) :
  string_of_index i = string_of_index j -> i = j.
Proof.
  intro H. pose proof (string_of_index_read i) as R.
  rewrite H, string_of_index_read in R. now injection R.
Qed.

Lemma identifierAt_inj (c : category) (x y : Raw c) (i j : nat) :
  c <> dip_detection ->
  identifierAt c x i = identifierAt c y j -> i = j.
Proof.
  intro N. destruct c; try (now destruct N); simpl; intro H;
    injection H as H;
    try (apply Nat2Z.inj in H; lia).
  now apply string_of_index_inj.
Qed.

(** X7.  On every route but the dip route, the opportunities of one
    answer carry pairwise distinct identifiers, whatever the raw records
    are. *)
Theorem identifiers_are_distinct (c : category) (data : list (Raw c)) :
  c <> dip_detection ->
  NoDup (map (identifierOf c) (processData c data)).
Proof.
  intro N. rewrite processData_map. unfold map_index.
  rewrite map_map_from. apply map_from_NoDup.
  intros x y i j. rewrite !identifier_of_processed.
  now apply identifierAt_inj.
Qed.

Lemma identifiers_are_distinct_witness :
  NoDup (map (identifierOf alchemy_floors)
           (processData alchemy_floors
              [Scenario.runeAxe; Scenario.runeAxe; Scenario.runeAxe])).
Proof.
  apply identifiers_are_distinct. discriminate.
Defined.

End MoreNormalizers.

(** ** From the routes to the page *)

Section Pipeline.
Import AnalyticsPage.

Lemma or_or_number (x : option Q) : (Some (x || 0) || 0)%js = (x || 0)%js.
Proof.
  destruct x as [q|]; simpl; [|reflexivity].
  destruct (truthy q) eqn:T; simpl; [now rewrite T | reflexivity].
Qed.

Lemma or_or_string (x : option string) (d : string) :
  (Some (x || d) || d)%js = (x || d)%js.
Proof.
  destruct x as [s|]; simpl.
  - destruct (truthy s) eqn:T; simpl; [now rewrite T|].
    now destruct (truthy d).
  - now destruct (truthy d).
Qed.

Lemma or_index (n : nat) (d : Q) :
  (Some (of_index (n + 1)) || d)%js = of_index (n + 1).
Proof.
  unfold JS.or, truthy, truthy_number, of_index. simpl.
  destruct (Z.of_nat (n + 1) =? 0)%Z eqn:E; [|reflexivity].
  apply Z.eqb_eq in E. lia.
Qed.

(** A page transformation applied to what a Normalizer wrote. *)
Lemma transform_of_processed {R O P I}
  (process : R -> nat -> O) (wire : O -> P) (transform : P -> nat -> I)
  (kept : O -> I) :
  (forall x i j, transform (wire (process x i)) j = kept (process x i)) ->
  forall (n : nat) (l : list R) (k k' : nat),
    map_from transform k' (slice0 n (map wire (map_from process k l)))
    = map kept (slice0 n (map_from process k l)).
Proof.
  intros H n l. revert n.
  induction l as [|x xs IH]; intros n k k'; simpl.
  - unfold slice0. rewrite !firstn_nil. reflexivity.
  - destruct n as [|n]; [reflexivity|].
    unfold slice0 in *. simpl. rewrite H. f_equal. apply IH.
Qed.

(** X8.  On the volatility, volume-profile, confluence and recipe routes
    the page's transformation changes nothing in what the Normalizer
    wrote: applied to the opportunities of an answer it yields the first
    50 of them, each with its identifier and its values as they are,
    restricted to the fields the page keeps.  None of the page's own
    defaults ever applies. *)
Theorem page_keeps_server_values :
  (forall items,
      transformVolatilityDataFromAPI
        (map Boundary.volatility
           (VolatilityBreakout.processVolatilityData items))
      = map Boundary.keptVolatility
          (slice0 50 (VolatilityBreakout.processVolatilityData items)))
  /\ (forall items,
         transformVolumeProfileDataFromAPI
           (map Boundary.volumeProfile
              (VolumeProfile.processVolumeProfileData items))
         = map Boundary.keptVolumeProfile
             (slice0 50 (VolumeProfile.processVolumeProfileData items)))
  /\ (forall items,
         transformConfluenceDataFromAPI
           (map Boundary.confluence
              (Confluence.processConfluenceData items))
         = map Boundary.keptConfluence
             (slice0 50 (Confluence.processConfluenceData items)))
  /\ (forall items,
         transformRecipeArbitrageDataFromAPI
           (map Boundary.recipeArbitrage
              (RecipeArbitrage.processRecipeArbitrageData items))
         = map Boundary.keptRecipeArbitrage
             (slice0 50 (RecipeArbitrage.processRecipeArbitrageData items))).
Proof.
  repeat split; intro items;
    apply transform_of_processed; intros x i j;
    [ unfold transformVolatility, Boundary.keptVolatility
    | unfold transformVolumeProfile, Boundary.keptVolumeProfile
    | unfold transformConfluence, Boundary.keptConfluence
    | unfold transformRecipeArbitrage, Boundary.keptRecipeArbitrage ];
    cbn -[JS.or of_index]; f_equal;
    first [apply or_index | apply or_or_number | apply or_or_string].
Qed.


Lemma transform_of_processed_rel {R O P I}
  (process : R -> nat -> O) (wire : O -> P) (transform : P -> nat -> I)
  (rel : O -> I -> Prop) :
  (forall x i j, rel (process x i) (transform (wire (process x i)) j)) ->
  forall (n : nat) (l : list R) (k k' : nat),
    Forall2 rel
      (slice0 n (map_from process k l))
      (map_from transform k' (slice0 n (map wire (map_from process k l)))).
Proof.
  intros H n l. revert n.
  induction l as [|x xs IH]; intros n k k'; simpl.
  - unfold slice0. rewrite !firstn_nil. constructor.
  - destruct n as [|n]; [constructor|].
    unfold slice0 in *. simpl. constructor; [apply H | apply IH].
Qed.

(** X9.  What the page shows of the dip route: for each of the first 50
    opportunities of an answer, in order, the identifier, the name and
    the buy limit as they are; the low price as the current price and
    the 24 h average as the average price, from which the buy and sell
    ranges are printed; the dip percentage as the price drop; the
    potential profit as the recovery potential and the 4 h profit as the
    estimated profit.  The volume spike is always 1 and every item is a
    members' item. *)
Theorem page_shows_dips (formatGP : Q -> string)
  (items : list DipDetection.RawDipData.t) :
  Forall2
    (fun o item =>
       DipItem.id item = DipDetection.DipOpportunity.id o
       /\ DipItem.name item = DipDetection.DipOpportunity.name o
       /\ DipItem.buyLimit item = DipDetection.DipOpportunity.buyLimit o
       /\ DipItem.currentPrice item
          = DipDetection.DipOpportunity.currentLow o
       /\ DipItem.avgPrice24h item
          = DipDetection.DipOpportunity.avg24hLow o
       /\ DipItem.buyRange item
          = (formatGP (DipDetection.DipOpportunity.currentLow o * 0.98)
             ++ " - "
             ++ formatGP (DipDetection.DipOpportunity.currentLow o * 1.02))
       /\ DipItem.sellRange item
          = (formatGP (DipDetection.DipOpportunity.avg24hLow o * 0.98)
             ++ " - "
             ++ formatGP (DipDetection.DipOpportunity.avg24hLow o * 1.02))
       /\ DipItem.priceDropPercent item
          = DipDetection.DipOpportunity.dipMagnitudePercent o
       /\ DipItem.recoveryPotential item
          == DipDetection.DipOpportunity.potentialProfit o
       /\ DipItem.estimatedProfit item
          == DipDetection.DipOpportunity.maxProfit4h o
       /\ DipItem.volumeSpike item = 1
       /\ DipItem.members item = true)
    (slice0 50 (DipDetection.processDipData items))
    (transformDipsDataFromAPI formatGP
       (map Boundary.dip (DipDetection.processDipData items))).
Proof.
  apply (transform_of_processed_rel
           (fun item (_ : nat) => DipDetection.processItem item)
           Boundary.dip
           (fun item (_ : nat) => transformDip formatGP item)).
  intros x i j.
  unfold transformDip, Boundary.dip, DipDetection.processItem.
  cbn -[JS.or Qminus Qmult].
  rewrite !or_or_number, !or_or_string.
  repeat split; try reflexivity.
  - exact (or_number
             (Some ((DipDetection.RawDipData.AvgLow x || 0)%js
                    - (DipDetection.RawDipData.LowPrice x || 0)%js))).
  - exact (or_number
             (Some (((DipDetection.RawDipData.AvgLow x || 0)%js
                     - (DipDetection.RawDipData.LowPrice x || 0)%js)
                    * (DipDetection.RawDipData.BuyLimit x || 0)%js))).
Qed.

End Pipeline.

(** ** Labels and row keys *)

Section PageLabels.
Import AnalyticsPage Labels.

Lemma replaceUnderscore_length (text : string) :
  String.length (replaceUnderscore text) = String.length text.
Proof.
  induction text as [|a rest IH]; simpl; [reflexivity|].
  destruct (Ascii.eqb a "_"); simpl; congruence.
Qed.

Lemma replaceUnderscore_spec (text : string) :
  (holds "_" text = false /\ replaceUnderscore text = text)
  \/ exists before after,
      text = (before ++ String "_" after)%string
      /\ holds "_" before = false
      /\ replaceUnderscore text = (before ++ String " " after)%string.
Proof.
  induction text as [|a rest IH]; simpl.
  - now left.
  - destruct (Ascii.eqb a "_") eqn:E; simpl.
    + right. apply Ascii.eqb_eq in E. subst a.
      exists EmptyString, rest. auto.
    + destruct IH as [[H R]|[before [after [T [H R]]]]].
      * left. now rewrite R.
      * right. exists (String a before), after. simpl.
        rewrite E, H, R, <- T. auto.
Qed.

(** X10.  A value that none of the three tables knows (and that is no
    member of [Object.prototype]) is shown with its first underscore
    turned into a space and everything else as it is, later underscores
    included; a value without an underscore is shown unchanged. *)
Theorem unknown_value_loses_first_underscore (text : string) :
  (get patterns text = Missing ->
   formatVolumePattern text = Some (replaceUnderscore text))
  /\ (get surges text = Missing ->
      formatVolumeSurge text = Some (replaceUnderscore text))
  /\ (get signals text = Missing ->
      formatSmartMoneySignal text = Some (replaceUnderscore text))
  /\ String.length (replaceUnderscore text) = String.length text
  /\ ((holds "_" text = false /\ replaceUnderscore text = text)
      \/ exists before after,
          text = (before ++ String "_" after)%string
          /\ holds "_" before = false
          /\ replaceUnderscore text = (before ++ String " " after)%string).
Proof.
  unfold formatVolumePattern, formatVolumeSurge, formatSmartMoneySignal,
    labelOf.
  repeat split; try (intros ->; reflexivity).
  - apply replaceUnderscore_length.
  - apply replaceUnderscore_spec.
Qed.

Lemma unknown_value_loses_first_underscore_witness :
  formatVolumeSurge "VERY_HIGH_VOLUME_SURGE" = Some "VERY HIGH_VOLUME_SURGE"
  /\ formatVolumePattern "SIDEWAYS" = Some "SIDEWAYS".
Proof.
  split.
  - destruct (unknown_value_loses_first_underscore "VERY_HIGH_VOLUME_SURGE")
      as [_ [H _]].
    exact (H eq_refl).
  - destruct (unknown_value_loses_first_underscore "SIDEWAYS") as [H _].
    exact (H eq_refl).
Defined.

(** X11.  Every value that a table lists is shown with the label the
    table gives it.  A volume-profile record in which the pattern, the
    surge or the signal is absent or empty is shown with the labels
    "Balanced Trading", "Normal Activity" and "Normal Trading": the
    defaults of the page's transformation are values the tables list. *)
Theorem defaults_have_labels (item : RawVolumeProfileData.t) (index : nat) :
  let shown := transformVolumeProfile item index in
  Forall (fun p => formatVolumePattern (fst p) = Some (snd p)) patterns
  /\ Forall (fun p => formatVolumeSurge (fst p) = Some (snd p)) surges
  /\ Forall (fun p => formatSmartMoneySignal (fst p) = Some (snd p)) signals
  /\ formatVolumePattern (VolumeProfileItem.volumePattern shown)
     = match RawVolumeProfileData.volumePattern item with
       | Some (String a rest) => formatVolumePattern (String a rest)
       | _ => Some "Balanced Trading"
       end
  /\ formatVolumeSurge (VolumeProfileItem.volumeSurge shown)
     = match RawVolumeProfileData.volumeSurge item with
       | Some (String a rest) => formatVolumeSurge (String a rest)
       | _ => Some "Normal Activity"
       end
  /\ formatSmartMoneySignal (VolumeProfileItem.smartMoneySignal shown)
     = match RawVolumeProfileData.smartMoneySignal item with
       | Some (String a rest) => formatSmartMoneySignal (String a rest)
       | _ => Some "Normal Trading"
       end.
Proof.
  simpl. repeat split.
  - repeat constructor.
  - repeat constructor.
  - repeat constructor.
  - now destruct (RawVolumeProfileData.volumePattern item) as [[|a r]|].
  - now destruct (RawVolumeProfileData.volumeSurge item) as [[|a r]|].
  - now destruct (RawVolumeProfileData.smartMoneySignal item) as [[|a r]|].
Qed.

End PageLabels.

Section PageKeys.
Import AnalyticsPage Labels Keys.

Lemma append_assoc (a b c : string) :
  ((a ++ b) ++ c = a ++ (b ++ c))%string.
Proof.
  induction a as [|ch a IH]; simpl; [reflexivity|]. now rewrite IH.
Qed.

Lemma digits_hold_no_dash (d : Decimal.uint) :
  holds "-" (NilEmpty.string_of_uint d) = false.
Proof. induction d; simpl; auto. Qed.

Lemma index_holds_no_dash (n : nat) : holds "-" (string_of_index n) = false.
Proof.
  unfold string_of_index, NilZero.string_of_uint.
  destruct (Nat.to_uint n) eqn:E; try reflexivity;
    rewrite <- E; apply digits_hold_no_dash.
Qed.

(** What follows the last dash of a string is determined by the string. *)
Lemma after_last_dash (a1 a2 d1 d2 : string) :
  holds "-" d1 = false -> holds "-" d2 = false ->
  (a1 ++ String "-" d1 = a2 ++ String "-" d2)%string ->
  d1 = d2.
Proof.
  intros H1 H2. revert a2.
  induction a1 as [|c a1 IH]; intros [|c' a2]; simpl; intro E.
  - now injection E.
  - injection E as <- E. rewrite E in H1.
    exfalso. clear - H1. induction a2 as [|x a2 IH]; simpl in H1.
    + discriminate H1.
    + destruct (Ascii.eqb x "-"); [discriminate H1 | auto].
  - injection E as -> E. rewrite <- E in H2.
    exfalso. clear - H2. induction a1 as [|x a1 IH]; simpl in H2.
    + discriminate H2.
    + destruct (Ascii.eqb x "-"); [discriminate H2 | auto].
  - injection E as _ E. exact (IH _ E).
Qed.

Section WithText.
Variable Number_toString : Q -> string.

Lemma rowKey_index (p q : string) (x y : Q) (i j : nat) :
  rowKey Number_toString p x i = rowKey Number_toString q y j -> i = j.
Proof.
  unfold rowKey. intro E.
  change ("-" ++ Number_toString x ++ "-" ++ string_of_index i)%string
    with (String "-" (Number_toString x ++ String "-" (string_of_index i)))
    in E.
  change ("-" ++ Number_toString y ++ "-" ++ string_of_index j)%string
    with (String "-" (Number_toString y ++ String "-" (string_of_index j)))
    in E.
  apply string_of_index_inj.
  apply (@after_last_dash (p ++ String "-" (Number_toString x))
           (q ++ String "-" (Number_toString y)));
    try apply index_holds_no_dash.
  rewrite !append_assoc. exact E.
Qed.

Lemma tableKeys_NoDup {A} (prefix : string) (id : A -> Q) (data : list A) :
  NoDup (map (fun row => rowKey Number_toString prefix (id (fst row))
                           (snd row))
           (tableRows data)).
Proof.
  unfold tableRows, map_index. rewrite map_map_from.
  apply map_from_NoDup. intros x y i j. simpl. apply rowKey_index.
Qed.

(** X12.  The rows of a table have pairwise distinct keys, whatever the
    identifiers of the items are (equal ones included) and however the
    engine writes a number: the index that ends a key tells the rows
    apart. *)
Theorem row_keys_are_distinct :
  (forall data, NoDup (DipsTableKeys Number_toString data))
  /\ (forall data, NoDup (AlchemyTableKeys Number_toString data))
  /\ (forall data, NoDup (VolatilityTableKeys Number_toString data))
  /\ (forall data, NoDup (VolumeProfileTableKeys Number_toString data))
  /\ (forall data, NoDup (ConfluenceTableKeys Number_toString data))
  /\ (forall data, NoDup (RecipeArbitrageTableKeys Number_toString data)).
Proof. repeat split; intro data; apply tableKeys_NoDup. Qed.

End WithText.

End PageKeys.

(** ** The audio cue *)

Section AudioCue.
Import Audio.

Variable JSON_parse : string -> option json.
Variable JSON_stringify : json -> string.

(** X13.  With a window and its storage, and a [JSON] that reads back the
    booleans it writes: the setting chosen with [setEnabled] is the one a
    system constructed afterwards starts with; and once the cue is
    switched off, neither the system at hand nor one constructed later
    schedules a tone.  Without a window or without storage [setEnabled]
    leaves the storage as it is. *)
Theorem setting_survives_reload (b : browser) (sys : SimpleAudioSystem)
  (stored : option string) (value : bool) :
  (forall v : bool, JSON_parse (JSON_stringify (JBool v)) = Some (JBool v)) ->
  let after := setEnabled JSON_stringify b value sys stored in
  isEnabled (fst after) = JBool value
  /\ (hasWindow b = true -> hasLocalStorage b = true ->
      exists again,
        construct JSON_parse b (snd after) = Some again
        /\ isEnabled again = JBool value
        /\ (value = false ->
            forall t w,
              playDataRefreshSound (fst after) t w = None
              /\ playDataRefreshSound again t w = None))
  /\ (hasWindow b && hasLocalStorage b = false -> snd after = stored).
Proof.
  intros RT after. split; [reflexivity|]. split.
  - intros W L. unfold after, setEnabled, saveSettings, construct,
      loadSettings. simpl. rewrite W, L. simpl. rewrite RT.
    eexists. split; [reflexivity|]. split; [reflexivity|].
    intros -> t w. split; reflexivity.
  - intro N. unfold after, setEnabled, saveSettings. simpl. now rewrite N.
Qed.

End AudioCue.

Lemma setting_survives_reload_witness :
  let b := {| Audio.hasWindow := true; Audio.audioContextWorks := true;
              Audio.hasLocalStorage := true |} in
  exists sys again,
    Audio.construct Audio.parseBoolean b None = Some sys
    /\ Audio.isEnabled sys = Audio.JBool true
    /\ Audio.construct Audio.parseBoolean b
         (snd (Audio.setEnabled Audio.stringifyBoolean b false sys None))
       = Some again
    /\ Audio.isEnabled again = Audio.JBool false
    /\ Audio.playDataRefreshSound again 0 true = None.
Proof.
  intro b.
  exists {| Audio.audioContext := true; Audio.enabled := Audio.JBool true;
            Audio.volume := 0.1 |}.
  destruct (@setting_survives_reload Audio.parseBoolean
              Audio.stringifyBoolean b
              {| Audio.audioContext := true;
                 Audio.enabled := Audio.JBool true; Audio.volume := 0.1 |}
              None false)
    as [_ [H _]].
  - intros [|]; reflexivity.
  - destruct (H eq_refl eq_refl) as [again [C [E P]]].
    exists again. split; [reflexivity|]. split; [reflexivity|].
    split; [exact C|]. split; [exact E|].
    now destruct (P eq_refl 0 true).
Defined.

Section AudioStart.
Import Audio.

Variable JSON_parse : string -> option json.

(** X14.  Constructing the audio system fails exactly when there are a
    window and its storage and the stored setting is text that
    [JSON.parse] rejects.  Otherwise the system starts enabled unless a
    setting is stored, and it has an audio context exactly when there is
    a window in which the context can be constructed; on the server it
    never schedules a tone. *)
Theorem construct_cases (b : browser) (stored : option string) :
  (construct JSON_parse b stored = None
   <-> hasWindow b && hasLocalStorage b = true
       /\ exists saved, stored = Some saved /\ JSON_parse saved = None)
  /\ (forall sys,
        construct JSON_parse b stored = Some sys ->
        audioContext sys = hasWindow b && audioContextWorks b
        /\ volume sys = 0.1
        /\ (stored = None -> isEnabled sys = JBool true)
        /\ (hasWindow b = false ->
            isEnabled sys = JBool true
            /\ forall t w, playDataRefreshSound sys t w = None)).
Proof.
  unfold construct, loadSettings, initializeAudioContext, isEnabled,
    playDataRefreshSound.
  destruct b as [[|] [|] [|]]; simpl;
    destruct stored as [saved|]; try destruct (JSON_parse saved) eqn:P;
    (split;
     [ split;
       [ intro E; first [discriminate E | split; [reflexivity | eauto]]
       | intros [W [s' [E N]]];
         first [discriminate W | discriminate E
               | injection E as <-; congruence] ]
     | intros sys E; first [discriminate E | injection E as <-]; simpl;
       repeat split; intros; first [reflexivity | discriminate] ]).
Qed.

End AudioStart.

Lemma construct_cases_witness :
  let b := {| Audio.hasWindow := true; Audio.audioContextWorks := false;
              Audio.hasLocalStorage := true |} in
  Audio.construct Audio.parseBoolean b (Some "enabled") = None
  /\ exists sys,
      Audio.construct Audio.parseBoolean b None = Some sys
      /\ Audio.audioContext sys = false
      /\ Audio.isEnabled sys = Audio.JBool true.
Proof.
  intro b. split.
  - apply (construct_cases Audio.parseBoolean b (Some "enabled")).
    split; [reflexivity|]. exists "enabled". split; reflexivity.
  - eexists. split; [reflexivity|].
    destruct (construct_cases Audio.parseBoolean b None) as [_ H].
    destruct (H _ eq_refl) as [A [_ [E _]]].
    split; [exact A | exact (E eq_refl)].
Defined.
